(** * ChainExplorer: the transaction pipeline of [main.py]

    A shallow embedding of [fetch_transactions], [create_network_graph],
    [draw_plotly_graph] and [update_graphs], with the parts of networkx and
    pandas they call.

    Conventions.
    - Python floats are embedded as exact rationals ([Q]); marker sizes, which
      go through [math.log], as real numbers ([R]).  Rounding, the range of
      binary64, infinities and NaN values are outside the model.
    - Python dictionaries keep insertion order, and the order of
      [G.nodes()] and [G.edges()] is that order: dictionaries are
      association lists with unique keys.
    - A raised exception is a value of [result]; [print] calls are dropped.
    - The builtins [float] and [int] on strings, [pd.to_datetime] and the
      numeric layout solver are fields of the class [PyEnv]: every theorem
      holds for all of them.  [decimal_env] is an instance that agrees with
      Python on plain decimal integers; the concrete runs use it. *)

From Stdlib Require Import List String Ascii Bool ZArith QArith Sorted Lia.
From Stdlib Require Import Qpower Permutation.
From Stdlib Require Import Reals Psatz.
Import ListNotations.

Local Open Scope string_scope.
Local Open Scope list_scope.

(* ================================================================== *)
(** * Part I: definitions *)
(* ================================================================== *)

(** ** Exceptions *)

Inductive exn : Type :=
| KeyError (key : string)
| ValueError (msg : string)
| TypeError (msg : string).

Inductive result (A : Type) : Type :=
| Ok (a : A)
| Raise (e : exn).

Arguments Ok {A} a.
Arguments Raise {A} e.

Definition bind {A B : Type} (m : result A) (k : A -> result B) : result B :=
  match m with
  | Ok a => k a
  | Raise e => Raise e
  end.

Notation "x <- m ;; k" := (bind m (fun x => k))
  (at level 61, m at next level, right associativity).

Fixpoint mapM {A B : Type} (f : A -> result B) (l : list A) : result (list B) :=
  match l with
  | [] => Ok []
  | a :: rest =>
      b <- f a ;;
      bs <- mapM f rest ;;
      Ok (b :: bs)
  end.

Definition of_option {A : Type} (e : exn) (o : option A) : result A :=
  match o with
  | Some a => Ok a
  | None => Raise e
  end.

(** ** Insertion-ordered dictionaries with string keys *)

Definition dict (V : Type) : Type := list (string * V).

Fixpoint dict_get {V : Type} (k : string) (d : dict V) : option V :=
  match d with
  | [] => None
  | (k', v) :: rest => if k =? k' then Some v else dict_get k rest
  end.

(** [d[k] = v]: an existing key keeps its place, a new key goes last. *)
Fixpoint dict_set {V : Type} (k : string) (v : V) (d : dict V) : dict V :=
  match d with
  | [] => [(k, v)]
  | (k', v') :: rest =>
      if k =? k' then (k', v) :: rest else (k', v') :: dict_set k v rest
  end.

Definition dict_keys {V : Type} (d : dict V) : list string := map fst d.

Definition dict_mem {V : Type} (k : string) (d : dict V) : bool :=
  match dict_get k d with
  | Some _ => true
  | None => false
  end.

Definition str_mem (k : string) (l : list string) : bool :=
  existsb (String.eqb k) l.

(** ** networkx: [nx.Graph] and the methods the program calls *)

Module nx.

(** [G._adj]: node -> (neighbour -> weight).  The program only ever stores
    the attribute dictionary [{'weight': w}] on an edge, embedded as [w];
    [G._node] has the keys of [G._adj] in the same order (every method
    inserts into both) and empty attribute dictionaries, so [_adj] stands
    for both. *)
Definition Graph : Type := dict (dict Q).

Definition edge : Type := (string * string * Q)%type.

(** [nx.Graph()] *)
Definition empty : Graph := [].

(** [if u not in self._node: self._adj[u] = {}; self._node[u] = {}] *)
Definition ensure_node (u : string) (G : Graph) : Graph :=
  if dict_mem u G then G else dict_set u [] G.

Definition nbrs (u : string) (G : Graph) : dict Q :=
  match dict_get u G with
  | Some d => d
  | None => []
  end.

(** [G.add_edge(u, v, weight=w)]:
    the attribute dictionary of an existing edge is updated in place, so a
    second call for the same pair overwrites the weight; both directions
    hold the same dictionary. *)
Definition add_edge (u v : string) (w : Q) (G : Graph) : Graph :=
  let G0 := ensure_node v (ensure_node u G) in
  let G1 := dict_set u (dict_set v w (nbrs u G0)) G0 in
  dict_set v (dict_set u w (nbrs v G1)) G1.

(** [G.nodes()] *)
Definition nodes (G : Graph) : list string := dict_keys G.


(** [G.edges(data=True)]: every node in order, every neighbour not yet
    seen; the node joins [seen] once its neighbours are done. *)
Fixpoint edges_from (adj : Graph) (seen : list string) : list edge :=
  match adj with
  | [] => []
  | (n, nb) :: rest =>
      map (fun p => (n, fst p, snd p))
          (filter (fun p => negb (str_mem (fst p) seen)) nb)
      ++ edges_from rest (n :: seen)
  end.

Definition edges (G : Graph) : list edge := edges_from G [].

(** [nx.degree(G, n)] for a node of the graph: [len(nbrs) + (n in nbrs)],
    a self-loop counts twice.  For anything else the call returns a view
    and no number: [None]. *)
Definition degree (G : Graph) (n : string) : option nat :=
  match dict_get n G with
  | Some nb => Some (List.length nb + (if dict_mem n nb then 1 else 0))%nat
  | None => None
  end.

(** [G[u][v]['weight']] as an option. *)
Definition weight (G : Graph) (u v : string) : option Q :=
  match dict_get u G with
  | Some nb => dict_get v nb
  | None => None
  end.

End nx.

(** ** The Python and library functions the program is parametric in *)

Class PyEnv : Type := {
  (** [float(s)]; [None] is a [ValueError] *)
  py_float : string -> option Q;
  (** [int(s)]; [None] is a [ValueError] *)
  py_int : string -> option Z;
  (** [pd.to_datetime(s, unit='s')], in nanoseconds since the epoch: [None]
      when the call raises (no number, a time out of bounds), [Some None]
      for [NaT] (no time, as for an empty string), [Some (Some t)]
      otherwise *)
  pd_to_datetime : string -> option (option Z);
  (** the position the Kamada-Kawai solver gives a node of a graph, for a
      scale *)
  kamada_kawai_solve : nx.Graph -> Q -> string -> Q * Q
}.

(** ** pandas: the data frames of transaction records *)

(** A cell of the [tokenDecimal] column: missing in the record ([NaN] in the
    frame), the string of the JSON answer, or an integer after
    [astype(int)]. *)
Inductive cell : Type :=
| NaN
| Str (s : string)
| Int (z : Z).

(** One transaction record of the ledger API: the fields the program reads. *)
Record Row : Type := {
  tx_from : string;
  tx_to : string;
  tx_value : string;
  tx_timeStamp : string;
  tx_tokenDecimal : cell
}.

Record DataFrame : Type := {
  columns : list string;
  rows : list Row
}.

(** [pd.DataFrame()] and [pd.DataFrame([])]: no rows and no columns. *)
Definition empty_frame : DataFrame := {| columns := []; rows := [] |}.

Definition has_tokenDecimal (r : Row) : bool :=
  match tx_tokenDecimal r with
  | NaN => false
  | _ => true
  end.

(** [pd.DataFrame(records)]: the columns are the keys of the records. *)
Definition pd_DataFrame (records : list Row) : DataFrame :=
  match records with
  | [] => empty_frame
  | _ :: _ =>
      {| columns := ["from"; "to"; "value"; "timeStamp"]
                    ++ (if existsb has_tokenDecimal records
                        then ["tokenDecimal"] else []);
         rows := records |}
  end.

(** [df.empty]: some axis has length 0. *)
Definition df_empty (df : DataFrame) : bool :=
  (List.length (rows df) =? 0)%nat || (List.length (columns df) =? 0)%nat.

(** [df[col]]: [KeyError] without the column. *)
Definition getitem (df : DataFrame) (col : string) : result unit :=
  if str_mem col (columns df) then Ok tt else Raise (KeyError col).

(** [df[df['value'] != '0']]: a comparison of strings. *)
Definition drop_zero_value (df : DataFrame) : result DataFrame :=
  _ <- getitem df "value" ;;
  Ok {| columns := columns df;
        rows := filter (fun r => negb (tx_value r =? "0")) (rows df) |}.

Definition set_tokenDecimal (r : Row) (c : cell) : Row :=
  {| tx_from := tx_from r; tx_to := tx_to r; tx_value := tx_value r;
     tx_timeStamp := tx_timeStamp r; tx_tokenDecimal := c |}.

Section Program.

Context {env : PyEnv}.

(** [int(c)] for a cell. *)
Definition cell_to_int (c : cell) : result Z :=
  match c with
  | NaN => Raise (ValueError "cannot convert float NaN to integer")
  | Str s => of_option (ValueError "invalid literal for int()") (py_int s)
  | Int z => Ok z
  end.

(** [df['tokenDecimal'] = df['tokenDecimal'].astype(int)] *)
Definition astype_int_tokenDecimal (df : DataFrame) : result DataFrame :=
  _ <- getitem df "tokenDecimal" ;;
  rs <- mapM (fun r => z <- cell_to_int (tx_tokenDecimal r) ;;
                       Ok (set_tokenDecimal r (Int z))) (rows df) ;;
  Ok {| columns := columns df; rows := rs |}.

(** ** [fetch_transactions] *)

(** What [response.json().get('result', [])] gives to [pd.DataFrame]:
    a list of records, or something that makes one of the three raise
    (a body that is not JSON, a result that is an error string). *)
Inductive payload : Type :=
| JsonResult (records : list Row)
| JsonError.

(** What [requests.get] does: it raises, or returns a response. *)
Inductive response : Type :=
| RequestException
| Response (status_code : Z) (body : payload).

Definition frame_of_payload (p : payload) : result DataFrame :=
  match p with
  | JsonResult records => Ok (pd_DataFrame records)
  | JsonError => Raise (ValueError "DataFrame constructor not properly called!")
  end.

(** The body of the [try]. *)
Definition fetch_try (eth_response erc20_response : response)
  : result (DataFrame * DataFrame) :=
  eth_transactions <-
    match eth_response with
    | RequestException => Raise (ValueError "requests.get")
    | Response status_code body =>
        if (status_code =? 200)%Z then frame_of_payload body
        else Ok empty_frame
    end ;;
  erc20_transactions <-
    match erc20_response with
    | RequestException => Raise (ValueError "requests.get")
    | Response status_code body =>
        if (status_code =? 200)%Z then
          df <- frame_of_payload body ;;
          astype_int_tokenDecimal df
        else Ok empty_frame
    end ;;
  Ok (eth_transactions, erc20_transactions).

(** [fetch_transactions(address, api_key)], as a function of what the two
    requests answer: [except Exception] resets both frames. *)
Definition fetch_transactions (eth_response erc20_response : response)
  : DataFrame * DataFrame :=
  match fetch_try eth_response erc20_response with
  | Ok frames => frames
  | Raise _ => (empty_frame, empty_frame)
  end.

(** ** [create_network_graph] *)

Definition Qlt_bool (a b : Q) : bool := negb (Qle_bool b a).

(** The value of line 115:
    [float(tx['value']) / (10 ** int(tx['tokenDecimal'])) if token
     else float(tx['value']) / 10**18]. *)
Definition tx_valueMajor (transactions : DataFrame) (token : bool) (tx : Row)
  : result Q :=
  if token then
    v <- of_option (ValueError "could not convert string to float")
                   (py_float (tx_value tx)) ;;
    _ <- getitem transactions "tokenDecimal" ;;
    d <- cell_to_int (tx_tokenDecimal tx) ;;
    Ok (v / (10 ^ d))%Q
  else
    v <- of_option (ValueError "could not convert string to float")
                   (py_float (tx_value tx)) ;;
    Ok (v / (10 ^ 18))%Q.

(** The loop over [transactions.iterrows()]. *)
Fixpoint add_transactions (transactions : DataFrame) (token : bool)
  (txs : list Row) (G : nx.Graph) : result nx.Graph :=
  match txs with
  | [] => Ok G
  | tx :: rest =>
      value <- tx_valueMajor transactions token tx ;;
      if Qlt_bool 0 value then
        add_transactions transactions token rest
          (nx.add_edge (tx_from tx) (tx_to tx) value G)
      else
        add_transactions transactions token rest G
  end.

Definition create_network_graph (transactions : DataFrame) (token : bool)
  : result nx.Graph :=
  add_transactions transactions token (rows transactions) nx.empty.

(** ** [draw_plotly_graph] *)

(** [nx.kamada_kawai_layout(G, scale)]: [{}] for a graph without nodes,
    otherwise [dict(zip(G, pos))] for the solver's positions. *)
Definition kamada_kawai_layout (G : nx.Graph) (scale : Q) : dict (Q * Q) :=
  map (fun n => (n, kamada_kawai_solve G scale n)) (nx.nodes G).

(** An edge annotation: the text is the weight printed with four decimals
    and the unit; the record keeps the two. *)
Record Annotation : Type := {
  ann_x : Q;
  ann_y : Q;
  ann_weight : Q;
  ann_unit : string
}.

(** The data of the figure: the edge trace, the annotations, the node
    trace. *)
Record NetworkFigure : Type := {
  edge_x : list (option Q);
  edge_y : list (option Q);
  annotations : list Annotation;
  node_x : list Q;
  node_y : list Q;
  node_text : list string;
  node_sizes : list R
}.

Definition max_size : R := 25.
Definition base_size : R := 10.
Definition center_size : R := 15.

(** [pos[n]] *)
Definition pos_get (pos : dict (Q * Q)) (n : string) : result (Q * Q) :=
  of_option (KeyError n) (dict_get n pos).

(** The loop of lines 132-148, one edge after the other. *)
Fixpoint draw_edges (pos : dict (Q * Q)) (is_token : bool)
  (es : list nx.edge)
  : result (list (option Q) * list (option Q) * list Annotation) :=
  match es with
  | [] => Ok ([], [], [])
  | (u, v, w) :: rest =>
      p0 <- pos_get pos u ;;
      p1 <- pos_get pos v ;;
      tl <- draw_edges pos is_token rest ;;
      let '(xs, ys, anns) := tl in
      let '(x0, y0) := p0 in
      let '(x1, y1) := p1 in
      Ok (Some x0 :: Some x1 :: None :: xs,
          Some y0 :: Some y1 :: None :: ys,
          {| ann_x := ((x0 + x1) / 2)%Q;
             ann_y := ((y0 + y1) / 2)%Q;
             ann_weight := w;
             ann_unit := if negb is_token then "ETH" else "TOKENS" |}
          :: anns)
  end.

(** Lines 165-170: the marker size of one node. *)
Definition node_size (G : nx.Graph) (center_node node : string) : result R :=
  if node =? center_node then Ok center_size
  else
    node_degree <- of_option (TypeError "unsupported operand type(s) for +")
                             (nx.degree G node) ;;
    Ok (Rmin (base_size + ln (INR (node_degree + 1))) max_size).

(** The loop of lines 160-170. *)
Fixpoint draw_nodes (G : nx.Graph) (pos : dict (Q * Q)) (center_node : string)
  (ns : list string)
  : result (list Q * list Q * list string * list R) :=
  match ns with
  | [] => Ok ([], [], [], [])
  | node :: rest =>
      p <- pos_get pos node ;;
      size <- node_size G center_node node ;;
      tl <- draw_nodes G pos center_node rest ;;
      let '(xs, ys, texts, sizes) := tl in
      Ok (fst p :: xs, snd p :: ys, node :: texts, size :: sizes)
  end.

Definition draw_plotly_graph (G : nx.Graph) (is_token : bool)
  (center_node : string) : result NetworkFigure :=
  let pos := kamada_kawai_layout G 2 in
  et <- draw_edges pos is_token (nx.edges G) ;;
  nt <- draw_nodes G pos center_node (nx.nodes G) ;;
  let '(ex, ey, anns) := et in
  let '(nx_, ny_, texts, sizes) := nt in
  Ok {| edge_x := ex; edge_y := ey; annotations := anns;
        node_x := nx_; node_y := ny_; node_text := texts;
        node_sizes := sizes |}.

(** ** The time series of [update_graphs] (lines 63-67) *)

Fixpoint insert_key (k : Z) (ks : list Z) : list Z :=
  match ks with
  | [] => [k]
  | k' :: rest =>
      if (k <? k')%Z then k :: ks
      else if (k =? k')%Z then ks
      else k' :: insert_key k rest
  end.

(** The group keys of [groupby]: each key once, ascending. *)
Definition sorted_unique (ks : list Z) : list Z := fold_right insert_key [] ks.

Definition Qsum (l : list Q) : Q := fold_left Qplus l 0%Q.

Definition group_values (k : Z) (kv : list (Z * Q)) : list Q :=
  map snd (filter (fun p => (fst p =? k)%Z) kv).

(** [groupby(key)[value].sum()] *)
Definition groupby_sum (kv : list (Z * Q)) : list (Z * Q) :=
  map (fun k => (k, Qsum (group_values k kv))) (sorted_unique (map fst kv)).

Fixpoint cumsum_from (acc : Q) (l : list (Z * Q)) : list (Z * Q) :=
  match l with
  | [] => []
  | (k, v) :: rest => (k, (acc + v)%Q) :: cumsum_from (acc + v)%Q rest
  end.

(** [.cumsum()]: the first entry is the first value itself. *)
Definition cumsum (l : list (Z * Q)) : list (Z * Q) :=
  match l with
  | [] => []
  | (k, v) :: rest => (k, v) :: cumsum_from v rest
  end.

(** [groupby] drops the rows whose key is [NaT]. *)
Fixpoint dropna (kv : list (option Z * Q)) : list (Z * Q) :=
  match kv with
  | [] => []
  | (Some k, v) :: rest => (k, v) :: dropna rest
  | (None, _) :: rest => dropna rest
  end.

(** [transactions['time']], line 64. *)
Definition time_column (transactions : DataFrame) : result (list (option Z)) :=
  _ <- getitem transactions "timeStamp" ;;
  mapM (fun r => of_option (ValueError "non convertible value with the unit 's'")
                           (pd_to_datetime (tx_timeStamp r)))
       (rows transactions).

(** [transactions['value']] after line 66: the raw string of the record,
    converted and divided by [10**18]. *)
Definition value_column (transactions : DataFrame) : result (list Q) :=
  _ <- getitem transactions "value" ;;
  mapM (fun r => v <- of_option (ValueError "could not convert string to float")
                                (py_float (tx_value r)) ;;
                 Ok (v / (10 ^ 18))%Q)
       (rows transactions).

Definition time_series (transactions : DataFrame) : result (list (Z * Q)) :=
  time <- time_column transactions ;;
  value <- value_column transactions ;;
  Ok (cumsum (groupby_sum (dropna (combine time value)))).

(** ** [update_graphs] *)

Inductive figure : Type :=
| Network (fig : NetworkFigure)
| Scatter (xy : list (Z * Q)).

(** What the callback hands to the display: [html.Div(text)], [html.Div()],
    [dcc.Graph(figure=...)]. *)
Inductive component : Type :=
| html_Div (children : option string)
| dcc_Graph (fig : figure).

Definition no_eth_data : component :=
  html_Div (Some "No data available for Ethereum transactions").

Definition no_erc20_data : component :=
  html_Div (Some "No data available for ERC20 transactions").

(** Lines 45-47 *)
Definition apply_hide_zero (hide_zero : list string)
  (transactions erc20_transactions : DataFrame)
  : result (DataFrame * DataFrame) :=
  if str_mem "hide" hide_zero then
    t <- drop_zero_value transactions ;;
    e <- drop_zero_value erc20_transactions ;;
    Ok (t, e)
  else Ok (transactions, erc20_transactions).

(** Lines 51-55 and 57-61: the chart of one category, or its placeholder. *)
Definition graph_div (no_data : component) (transactions : DataFrame)
  (token : bool) (address : string) : result component :=
  if df_empty transactions then Ok no_data
  else
    graph <- create_network_graph transactions token ;;
    fig <- draw_plotly_graph graph token address ;;
    Ok (dcc_Graph (Network fig)).

(** Lines 45-80: what the callback does with the two fetched frames. *)
Definition render_graphs (address : string) (hide_zero : list string)
  (transactions erc20_transactions : DataFrame) : result (list component) :=
  frames <- apply_hide_zero hide_zero transactions erc20_transactions ;;
  let '(transactions, erc20_transactions) := frames in
  if df_empty transactions && df_empty erc20_transactions then
    Ok [no_eth_data; no_erc20_data]
  else
    eth_graph_div <- graph_div no_eth_data transactions false address ;;
    erc20_graph_div <- graph_div no_erc20_data erc20_transactions true address ;;
    time_series_data <- time_series transactions ;;
    Ok [eth_graph_div; erc20_graph_div; dcc_Graph (Scatter time_series_data)].

Definition update_graphs (n_clicks : Z) (address : string)
  (hide_zero : list string) (eth_response erc20_response : response)
  : result (list component) :=
  if (n_clicks >? 0)%Z then
    let '(transactions, erc20_transactions) :=
      fetch_transactions eth_response erc20_response in
    render_graphs address hide_zero transactions erc20_transactions
  else
    Ok [html_Div None; html_Div None; html_Div None].

(** A unit is a placeholder when it is a [html.Div] with a text. *)
Definition is_placeholder (c : component) : bool :=
  match c with
  | html_Div (Some _) => true
  | _ => false
  end.

End Program.

(** ** A reference instance: plain decimal integers *)

Definition digit_of (c : ascii) : option Z :=
  let n := nat_of_ascii c in
  if ((48 <=? n) && (n <=? 57))%nat then Some (Z.of_nat (n - 48)) else None.

Fixpoint digits_value (s : string) (acc : Z) : option Z :=
  match s with
  | EmptyString => Some acc
  | String c rest =>
      match digit_of c with
      | Some d => digits_value rest (10 * acc + d)%Z
      | None => None
      end
  end.

(** An optional minus sign and one or more decimal digits. *)
Definition parse_decimal (s : string) : option Z :=
  match s with
  | EmptyString => None
  | String c rest =>
      if Ascii.eqb c "-"%char then
        match rest with
        | EmptyString => None
        | _ => option_map Z.opp (digits_value rest 0)
        end
      else digits_value s 0
  end.

(** [float] and [int] on decimal integers, time stamps in whole seconds
    ([NaT] for the empty string), and a layout that puts every node at the
    origin. *)
Definition decimal_env : PyEnv := {|
  py_float := fun s => option_map inject_Z (parse_decimal s);
  py_int := parse_decimal;
  pd_to_datetime := fun s =>
    match s with
    | EmptyString => Some None
    | _ => option_map (fun z => Some (z * 1000000000)%Z) (parse_decimal s)
    end;
  kamada_kawai_solve := fun _ _ _ => (0%Q, 0%Q)
|}.

(** ** Sample records *)

Definition mk_tx (f t v ts : string) : Row :=
  {| tx_from := f; tx_to := t; tx_value := v; tx_timeStamp := ts;
     tx_tokenDecimal := NaN |}.

Definition mk_token_tx (f t v ts : string) (d : cell) : Row :=
  {| tx_from := f; tx_to := t; tx_value := v; tx_timeStamp := ts;
     tx_tokenDecimal := d |}.

Definition tx_ab_1 : Row := mk_tx "0xA" "0xB" "1000000000000000000" "1000".
Definition tx_ba_3 : Row := mk_tx "0xB" "0xA" "3000000000000000000" "2000".
Definition tx_ac_0 : Row := mk_tx "0xA" "0xC" "0" "3000".
Definition tx_dd_5 : Row := mk_tx "0xD" "0xD" "5000000000000000000" "4000".

Definition tx_ab_2 : Row := mk_tx "0xA" "0xB" "2000000000000000000" "1000".

(** One, three and five units of the native currency. *)
Definition one_eth : Q := (1000000000000000000 # 1000000000000000000)%Q.
Definition three_eth : Q := (3000000000000000000 # 1000000000000000000)%Q.
Definition five_eth : Q := (5000000000000000000 # 1000000000000000000)%Q.

(** Token transfers: a well-formed one, one with a [tokenDecimal] that is
    no number, one without the field. *)
Definition token_tx_ok : Row := mk_token_tx "0xA" "0xE" "2500000" "1500" (Str "6").

(** Answers of the ledger API: a list of native transactions, an answer
    without transactions, a server error. *)
Definition eth_ok : response := Response 200 (JsonResult [tx_ab_1]).
Definition no_transactions : response := Response 200 (JsonResult []).
Definition server_error : response := Response 500 JsonError.

(** The figure of the graph with the one edge 0xA - 0xB of weight one,
    drawn around 0xA with every node at the origin. *)
Definition one_edge_figure : NetworkFigure :=
  {| edge_x := [Some 0%Q; Some 0%Q; None];
     edge_y := [Some 0%Q; Some 0%Q; None];
     annotations := [ {| ann_x := ((0 + 0) / 2)%Q; ann_y := ((0 + 0) / 2)%Q;
                         ann_weight := one_eth; ann_unit := "ETH" |} ];
     node_x := [0%Q; 0%Q];
     node_y := [0%Q; 0%Q];
     node_text := ["0xA"; "0xB"];
     node_sizes := [center_size;
                    Rmin (base_size + ln (INR (1 + 1))) max_size] |}.

(** ** Vocabulary of the properties *)

(** [{x, y} = {a, b}] as unordered pairs. *)
Definition same_pair (a b x y : string) : bool :=
  ((x =? a) && (y =? b)) || ((x =? b) && (y =? a)).

(** The edges of [G.edges(data=True)] between [a] and [b]. *)
Definition pair_edges (a b : string) (es : list nx.edge) : list nx.edge :=
  filter (fun e => same_pair a b (fst (fst e)) (snd (fst e))) es.

(** The shape every graph built with [add_edge] has: unique keys in the
    adjacency and in every neighbour dictionary, the same weight in both
    directions, no node without a neighbour. *)
Record wf (G : nx.Graph) : Prop := {
  wf_keys : NoDup (dict_keys G);
  wf_inner : Forall (fun p => NoDup (dict_keys (snd p))) G;
  wf_sym : forall x y, nx.weight G x y = nx.weight G y x;
  wf_nonempty : forall n nb, dict_get n G = Some nb -> nb <> []
}.

Definition positive (G : nx.Graph) : Prop :=
  forall x y w, nx.weight G x y = Some w -> (0 < w)%Q.


Section Vocabulary.

Context {env : PyEnv}.

(** No record of the frame makes line 115 raise. *)
Definition converts (transactions : DataFrame) (token : bool) : Prop :=
  forall tx, In tx (rows transactions) ->
             exists v, tx_valueMajor transactions token tx = Ok v.


(** The time of a record ([None] for [NaT]) and its raw value in the major
    unit, read from the record itself. *)
Definition raw_time (r : Row) : option Z :=
  match pd_to_datetime (tx_timeStamp r) with
  | Some t => t
  | None => None
  end.

Definition raw_ether (r : Row) : Q :=
  match py_float (tx_value r) with
  | Some v => (v / (10 ^ 18))%Q
  | None => 0%Q
  end.

(** Neither [pd.to_datetime] nor [float] raises on the record. *)
Definition parses (r : Row) : Prop :=
  pd_to_datetime (tx_timeStamp r) <> None /\ py_float (tx_value r) <> None.

Definition at_time (t : Z) (r : Row) : bool :=
  match raw_time r with
  | Some t' => (t' =? t)%Z
  | None => false
  end.

Definition upto_time (t : Z) (r : Row) : bool :=
  match raw_time r with
  | Some t' => (t' <=? t)%Z
  | None => false
  end.

(** The time stamps of the records that have one. *)
Definition times_of (records : list Row) : list Z :=
  flat_map (fun r => match raw_time r with
                     | Some t => [t]
                     | None => []
                     end) records.

(** The sum of the values of the records with time stamp [t]: what the
    group of [t] adds up to. *)
Definition group_total (records : list Row) (t : Z) : Q :=
  Qsum (map raw_ether (filter (at_time t) records)).

(** The sum of the values of the records with a time stamp up to [t]. *)
Definition total_upto (records : list Row) (t : Z) : Q :=
  Qsum (map raw_ether (filter (upto_time t) records)).

(** The frame of line 67 before [cumsum]: every time stamp once,
    ascending, with the total of its group. *)
Definition groups_of (records : list Row) : list (Z * Q) :=
  map (fun k => (k, group_total records k)) (sorted_unique (times_of records)).

End Vocabulary.

(** The sum of the values of a keyed list with a key up to [t]. *)
Definition sum_upto (t : Z) (l : list (Z * Q)) : Q :=
  Qsum (map snd (filter (fun p => (fst p <=? t)%Z) l)).

(** ** Vocabulary of the further properties *)

Section FurtherVocabulary.

Context {env : PyEnv}.

(** [r'] is the record [r] after [astype(int)] on its [tokenDecimal]. *)
Definition converted_record (r r' : Row) : Prop :=
  exists z, cell_to_int (tx_tokenDecimal r) = Ok z
            /\ r' = set_tokenDecimal r (Int z).

(** The callback has clicks to answer and both frames are empty once the
    zero-value filter is through. *)
Definition both_empty (n_clicks : Z) (hide_zero : list string)
  (eth_response erc20_response : response) : bool :=
  (n_clicks >? 0)%Z
  && (let '(t, e) := fetch_transactions eth_response erc20_response in
      match apply_hide_zero hide_zero t e with
      | Ok (t', e') => df_empty t' && df_empty e'
      | Raise _ => false
      end).

(** [tx] is a record of the list with a converted value above 0. *)
Definition positive_tx (transactions : DataFrame) (token : bool)
  (txs : list Row) (tx : Row) : Prop :=
  In tx txs
  /\ exists v, tx_valueMajor transactions token tx = Ok v /\ (0 < v)%Q.

(** What line 135 and line 136 append for one edge: the two ends and the
    separator. *)
Definition segment_x (G : nx.Graph) (e : nx.edge) : list (option Q) :=
  let '(u, v, _) := e in
  [Some (fst (kamada_kawai_solve G 2 u));
   Some (fst (kamada_kawai_solve G 2 v)); None].

Definition segment_y (G : nx.Graph) (e : nx.edge) : list (option Q) :=
  let '(u, v, _) := e in
  [Some (snd (kamada_kawai_solve G 2 u));
   Some (snd (kamada_kawai_solve G 2 v)); None].

(** The annotation of lines 138-148 for one edge. *)
Definition label_of (G : nx.Graph) (is_token : bool) (e : nx.edge) : Annotation :=
  let '(u, v, w) := e in
  {| ann_x := ((fst (kamada_kawai_solve G 2 u)
                + fst (kamada_kawai_solve G 2 v)) / 2)%Q;
     ann_y := ((snd (kamada_kawai_solve G 2 u)
                + snd (kamada_kawai_solve G 2 v)) / 2)%Q;
     ann_weight := w;
     ann_unit := if is_token then "TOKENS" else "ETH" |}.

(** The record has a time ([pd.to_datetime] gives no [NaT]). *)
Definition has_time (r : Row) : bool :=
  match raw_time r with
  | Some _ => true
  | None => false
  end.

(** The sum of the values of all the records with a time. *)
Definition grand_total (records : list Row) : Q :=
  Qsum (map raw_ether (filter has_time records)).

End FurtherVocabulary.

(** The record with sender and receiver exchanged. *)
Definition swap_ends (r : Row) : Row :=
  {| tx_from := tx_to r; tx_to := tx_from r; tx_value := tx_value r;
     tx_timeStamp := tx_timeStamp r; tx_tokenDecimal := tx_tokenDecimal r |}.

(** A native record whose [value] is no number. *)
Definition tx_bad_value : Row := mk_tx "0xA" "0xB" "1e" "5000".

(** The token frame of one well-formed token record after the fetch. *)
Definition token_frame_ok : DataFrame :=
  {| columns := ["from"; "to"; "value"; "timeStamp"; "tokenDecimal"];
     rows := [set_tokenDecimal token_tx_ok (Int 6)] |}.

(* ================================================================== *)
(** * Part II: properties *)
(* ================================================================== *)

(** ** Strings and the error monad *)

Lemma eqb_false_sym (a b : string) : (a =? b) = false -> (b =? a) = false.
Proof. rewrite !String.eqb_neq. congruence. Qed.

Lemma str_mem_In (k : string) (l : list string) :
  str_mem k l = true <-> In k l.
Proof.
  unfold str_mem. rewrite existsb_exists. split.
  - intros [x [Hin Heq]]. apply String.eqb_eq in Heq. now subst.
  - intros Hin. exists k. split; [assumption | apply String.eqb_refl].
Qed.

Lemma str_mem_false (k : string) (l : list string) :
  str_mem k l = false <-> ~ In k l.
Proof.
  rewrite <- str_mem_In. destruct (str_mem k l); split; congruence.
Qed.

Lemma bind_Ok {A B : Type} (m : result A) (k : A -> result B) (b : B) :
  bind m k = Ok b -> exists a, m = Ok a /\ k a = Ok b.
Proof. destruct m as [a|e]; simpl; [eauto | discriminate]. Qed.

Lemma mapM_total {A B : Type} (f : A -> result B) (g : A -> B) (l : list A) :
  (forall a, In a l -> f a = Ok (g a)) -> mapM f l = Ok (map g l).
Proof.
  induction l as [|a l IH]; simpl; intros H; [reflexivity|].
  rewrite (H a (or_introl eq_refl)). simpl.
  rewrite IH by (intros; apply H; now right). reflexivity.
Qed.


(** ** Dictionaries *)

Section DictFacts.

Context {V : Type}.
Implicit Types (d : dict V) (k : string) (v : V).

Lemma dict_get_set_eq k v d : dict_get k (dict_set k v d) = Some v.
Proof.
  induction d as [|[k' v'] d IH]; simpl.
  - now rewrite String.eqb_refl.
  - destruct (k =? k') eqn:E; simpl; rewrite E; [reflexivity | exact IH].
Qed.

Lemma dict_get_set_neq k k' v d :
  (k' =? k) = false -> dict_get k' (dict_set k v d) = dict_get k' d.
Proof.
  intros Hne. induction d as [|[k0 v0] d IH]; simpl.
  - now rewrite Hne.
  - destruct (k =? k0) eqn:E; simpl.
    + apply String.eqb_eq in E. subst k0. now rewrite Hne.
    + rewrite IH. reflexivity.
Qed.

Lemma dict_get_set k k' v d :
  dict_get k' (dict_set k v d) = if k' =? k then Some v else dict_get k' d.
Proof.
  destruct (k' =? k) eqn:E.
  - apply String.eqb_eq in E. subst. apply dict_get_set_eq.
  - now apply dict_get_set_neq.
Qed.

Lemma dict_get_Some_In k v d : dict_get k d = Some v -> In (k, v) d.
Proof.
  induction d as [|[k' v'] d IH]; simpl; [discriminate|].
  destruct (k =? k') eqn:E.
  - apply String.eqb_eq in E. intros H. inversion H; subst. now left.
  - intros H. right. now apply IH.
Qed.

Lemma dict_get_None_keys k d : dict_get k d = None <-> ~ In k (dict_keys d).
Proof.
  induction d as [|[k' v'] d IH]; simpl.
  - tauto.
  - destruct (k =? k') eqn:E.
    + apply String.eqb_eq in E. subst. split; [discriminate | tauto].
    + apply String.eqb_neq in E. rewrite IH. intuition congruence.
Qed.

Lemma dict_get_keys k v d : dict_get k d = Some v -> In k (dict_keys d).
Proof.
  intros H. apply dict_get_Some_In in H.
  unfold dict_keys. change k with (fst (k, v)). now apply in_map.
Qed.

Lemma In_dict_get k v d : NoDup (dict_keys d) -> In (k, v) d -> dict_get k d = Some v.
Proof.
  induction d as [|[k' v'] d IH]; simpl; intros Hnd Hin; [contradiction|].
  inversion Hnd as [|? ? Hnotin Hnd']; subst.
  destruct Hin as [Heq | Hin].
  - inversion Heq; subst. now rewrite String.eqb_refl.
  - destruct (k =? k') eqn:E.
    + apply String.eqb_eq in E. subst k'. exfalso. apply Hnotin.
      change k with (fst (k, v)). now apply in_map.
    + now apply IH.
Qed.

Lemma In_dict_set p k v d : In p (dict_set k v d) -> p = (k, v) \/ In p d.
Proof.
  induction d as [|[k' v'] d IH]; simpl.
  - intros [H | []]. now left.
  - destruct (k =? k') eqn:E.
    + apply String.eqb_eq in E. subst k'. simpl.
      intros [H | H]; [now left | right; now right].
    + simpl. intros [H | H]; [right; now left|].
      destruct (IH H) as [H' | H']; [now left | right; now right].
Qed.

Lemma dict_keys_set k v d :
  dict_keys (dict_set k v d)
  = if dict_mem k d then dict_keys d else dict_keys d ++ [k].
Proof.
  unfold dict_mem. induction d as [|[k' v'] d IH]; simpl; [reflexivity|].
  destruct (k =? k') eqn:E; simpl; [reflexivity|].
  rewrite IH. now destruct (dict_get k d).
Qed.

Lemma NoDup_dict_set k v d : NoDup (dict_keys d) -> NoDup (dict_keys (dict_set k v d)).
Proof.
  intros Hnd. rewrite dict_keys_set. unfold dict_mem.
  destruct (dict_get k d) eqn:E; [assumption|].
  apply dict_get_None_keys in E.
  apply NoDup_app; [assumption | repeat constructor; simpl; tauto |].
  intros x Hx [<- | []]. contradiction.
Qed.

Lemma dict_set_not_nil k v d : dict_set k v d <> [].
Proof. destruct d as [|[k' v'] d]; simpl; [|destruct (k =? k')]; discriminate. Qed.

End DictFacts.

(** ** The graph: weights after [add_edge] *)

Lemma same_pair_sym (a b x y : string) : same_pair a b x y = same_pair b a x y.
Proof. unfold same_pair. apply orb_comm. Qed.

Lemma same_pair_swap (a b x y : string) : same_pair a b x y = same_pair a b y x.
Proof.
  unfold same_pair. rewrite orb_comm.
  now rewrite (andb_comm (x =? b)), (andb_comm (x =? a)).
Qed.

Lemma same_pair_refl (a b : string) : same_pair a b a b = true.
Proof. unfold same_pair. now rewrite !String.eqb_refl. Qed.

Lemma weight_nbrs (G : nx.Graph) (x y : string) :
  nx.weight G x y = dict_get y (nx.nbrs x G).
Proof. unfold nx.weight, nx.nbrs. now destruct (dict_get x G). Qed.

Lemma weight_dict_set (G : nx.Graph) (u : string) (d : dict Q) (x y : string) :
  nx.weight (dict_set u d G) x y
  = if x =? u then dict_get y d else nx.weight G x y.
Proof. unfold nx.weight. rewrite dict_get_set. now destruct (x =? u). Qed.

Lemma dict_get_ensure_node (G : nx.Graph) (u n : string) :
  dict_get n (nx.ensure_node u G)
  = match dict_get n G with
    | Some nb => Some nb
    | None => if n =? u then Some [] else None
    end.
Proof.
  unfold nx.ensure_node, dict_mem. destruct (dict_get u G) eqn:Eu.
  - destruct (dict_get n G) eqn:En; [reflexivity|].
    destruct (n =? u) eqn:E; [|reflexivity].
    apply String.eqb_eq in E. subst. congruence.
  - rewrite dict_get_set. destruct (n =? u) eqn:E.
    + apply String.eqb_eq in E. subst. now rewrite Eu.
    + now destruct (dict_get n G).
Qed.

Lemma weight_ensure_node (G : nx.Graph) (u x y : string) :
  nx.weight (nx.ensure_node u G) x y = nx.weight G x y.
Proof.
  unfold nx.weight. rewrite dict_get_ensure_node.
  destruct (dict_get x G); [reflexivity|]. now destruct (x =? u).
Qed.

(** The weight read after [add_edge(u, v, weight=w)]: [w] between [u] and
    [v], in both directions, and what it was everywhere else. *)
Lemma weight_add_edge (G : nx.Graph) (u v : string) (w : Q) (x y : string) :
  nx.weight (nx.add_edge u v w G) x y
  = if same_pair u v x y then Some w else nx.weight G x y.
Proof.
  unfold nx.add_edge. cbv zeta.
  repeat first [ rewrite weight_dict_set | rewrite dict_get_set
               | rewrite <- weight_nbrs | rewrite weight_ensure_node ].
  unfold same_pair.
  destruct (x =? v) eqn:Exv, (y =? u) eqn:Eyu, (x =? u) eqn:Exu,
           (y =? v) eqn:Eyv; simpl; try reflexivity;
    repeat match goal with
           | H : (_ =? _) = true |- _ => apply String.eqb_eq in H; subst
           end;
    rewrite ?String.eqb_refl in *; try congruence;
    repeat match goal with
           | |- context [?a =? ?b] => destruct (a =? b) eqn:?
           end; congruence.
Qed.

(** ** The graph: the shape [add_edge] keeps *)

Lemma wf_empty : wf nx.empty.
Proof.
  split; simpl.
  - constructor.
  - constructor.
  - reflexivity.
  - discriminate.
Qed.

Lemma positive_empty : positive nx.empty.
Proof. intros x y w H. discriminate. Qed.

Lemma Forall_dict_set {V : Type} (P : string * V -> Prop) (k : string) (v : V)
  (d : dict V) : Forall P d -> P (k, v) -> Forall P (dict_set k v d).
Proof.
  rewrite !Forall_forall. intros Hd Hk p Hin.
  destruct (In_dict_set _ _ _ _ Hin) as [-> | Hin']; auto.
Qed.

Lemma inner_nbrs (G : nx.Graph) (u : string) :
  Forall (fun p => NoDup (dict_keys (snd p))) G -> NoDup (dict_keys (nx.nbrs u G)).
Proof.
  intros HG. unfold nx.nbrs. destruct (dict_get u G) as [d|] eqn:E.
  - apply dict_get_Some_In in E. rewrite Forall_forall in HG.
    exact (HG _ E).
  - constructor.
Qed.

Lemma NoDup_ensure_node (G : nx.Graph) (u : string) :
  NoDup (dict_keys G) -> NoDup (dict_keys (nx.ensure_node u G)).
Proof.
  intros H. unfold nx.ensure_node. destruct (dict_mem u G); [assumption|].
  now apply NoDup_dict_set.
Qed.

Lemma inner_ensure_node (G : nx.Graph) (u : string) :
  Forall (fun p => NoDup (dict_keys (snd p))) G ->
  Forall (fun p => NoDup (dict_keys (snd p))) (nx.ensure_node u G).
Proof.
  intros H. unfold nx.ensure_node. destruct (dict_mem u G); [assumption|].
  apply Forall_dict_set; [assumption | constructor].
Qed.

Lemma wf_add_edge (G : nx.Graph) (u v : string) (w : Q) :
  wf G -> wf (nx.add_edge u v w G).
Proof.
  intros [Hk Hi Hs Hn].
  assert (Hk0 := NoDup_ensure_node _ v (NoDup_ensure_node _ u Hk)).
  assert (Hi0 := inner_ensure_node _ v (inner_ensure_node _ u Hi)).
  split.
  - unfold nx.add_edge. cbv zeta. now repeat apply NoDup_dict_set.
  - unfold nx.add_edge. cbv zeta.
    assert (Hi1 : Forall (fun p => NoDup (dict_keys (snd p)))
                    (dict_set u (dict_set v w
                       (nx.nbrs u (nx.ensure_node v (nx.ensure_node u G))))
                       (nx.ensure_node v (nx.ensure_node u G)))).
    { apply Forall_dict_set; [assumption|]. simpl.
      apply NoDup_dict_set. now apply inner_nbrs. }
    apply Forall_dict_set; [assumption|]. simpl.
    apply NoDup_dict_set. now apply inner_nbrs.
  - intros x y. rewrite !weight_add_edge, (same_pair_swap u v y x), Hs.
    reflexivity.
  - intros n nb. unfold nx.add_edge. cbv zeta. rewrite dict_get_set.
    destruct (n =? v) eqn:Env.
    { intros H. inversion H. apply dict_set_not_nil. }
    rewrite dict_get_set. destruct (n =? u) eqn:Enu.
    { intros H. inversion H. apply dict_set_not_nil. }
    rewrite !dict_get_ensure_node, Env, Enu.
    destruct (dict_get n G) as [d|] eqn:E; [|discriminate].
    intros H. inversion H; subst. exact (Hn _ _ E).
Qed.

Lemma positive_add_edge (G : nx.Graph) (u v : string) (w : Q) :
  positive G -> (0 < w)%Q -> positive (nx.add_edge u v w G).
Proof.
  intros HG Hw x y w'. rewrite weight_add_edge.
  destruct (same_pair u v x y).
  - intros H. inversion H; subst. exact Hw.
  - apply HG.
Qed.

(** ** The graph: what [G.edges(data=True)] lists *)

Lemma filter_all_false {A : Type} (f : A -> bool) (l : list A) :
  (forall x, In x l -> f x = false) -> filter f l = [].
Proof.
  induction l as [|a l IH]; simpl; intros H; [reflexivity|].
  rewrite (H a (or_introl eq_refl)). apply IH. intros; apply H; now right.
Qed.

Lemma pair_edges_app (a b : string) (l1 l2 : list nx.edge) :
  pair_edges a b (l1 ++ l2) = pair_edges a b l1 ++ pair_edges a b l2.
Proof. apply filter_app. Qed.

Lemma pair_edges_sym (a b : string) (l : list nx.edge) :
  pair_edges a b l = pair_edges b a l.
Proof.
  unfold pair_edges. apply filter_ext. intros e. apply same_pair_sym.
Qed.

Lemma edges_from_In (l : nx.Graph) (seen : list string) (x y : string) (w : Q) :
  In (x, y, w) (nx.edges_from l seen) ->
  exists nb, In (x, nb) l /\ In (y, w) nb /\ ~ In y seen.
Proof.
  revert seen. induction l as [|[n nb] l IH]; simpl; intros seen H; [contradiction|].
  apply in_app_or in H. destruct H as [H | H].
  - apply in_map_iff in H. destruct H as [[m w'] [Heq Hin]].
    simpl in Heq. inversion Heq; subst.
    apply filter_In in Hin. destruct Hin as [Hin Hseen]. simpl in Hseen.
    exists nb. split; [now left|]. split; [assumption|].
    apply str_mem_false. now destruct (str_mem y seen).
  - destruct (IH _ H) as [nb' [H1 [H2 H3]]].
    exists nb'. split; [now right|]. split; [assumption|].
    intros Hs. apply H3. now right.
Qed.

(** Once a node is in [seen], no listed edge touches it. *)
Lemma pair_edges_seen (l : nx.Graph) (seen : list string) (a b : string) :
  In a seen -> ~ In a (dict_keys l) ->
  pair_edges a b (nx.edges_from l seen) = [].
Proof.
  intros Hseen Hkey. apply filter_all_false. intros [[x y] w] Hin.
  destruct (edges_from_In _ _ _ _ _ Hin) as [nb [Hx [_ Hy]]]. simpl.
  assert (Hxa : (x =? a) = false).
  { apply String.eqb_neq. intros ->. apply Hkey.
    change a with (fst (a, nb)). now apply in_map. }
  assert (Hya : (y =? a) = false).
  { apply String.eqb_neq. intros ->. now apply Hy. }
  unfold same_pair. rewrite Hxa, Hya. simpl. now rewrite andb_false_r.
Qed.

Lemma same_pair_first (a b m : string) : same_pair a b a m = true -> m = b.
Proof.
  unfold same_pair. rewrite String.eqb_refl. simpl.
  destruct (m =? b) eqn:E; simpl.
  - intros _. now apply String.eqb_eq.
  - intros H. apply andb_prop in H. destruct H as [H1 H2].
    apply String.eqb_eq in H1, H2. congruence.
Qed.

(** The row of [a]: no edge to [b] without [b] among the neighbours. *)
Lemma row_miss (a b : string) (nb : dict Q) (seen : list string) :
  dict_get b nb = None ->
  pair_edges a b (map (fun p => (a, fst p, snd p))
                      (filter (fun p => negb (str_mem (fst p) seen)) nb)) = [].
Proof.
  intros Hget. apply filter_all_false. intros e Hin.
  apply in_map_iff in Hin. destruct Hin as [[m w] [<- Hin]]. simpl.
  apply filter_In in Hin. destruct Hin as [Hin _].
  destruct (same_pair a b a m) eqn:E; [|reflexivity].
  apply same_pair_first in E. subst m.
  apply dict_get_None_keys in Hget. exfalso. apply Hget.
  change b with (fst (b, w)). now apply in_map.
Qed.

(** The row of [a]: exactly one edge to an unseen neighbour [b]. *)
Lemma row_hit (a b : string) (nb : dict Q) (seen : list string) (w : Q) :
  NoDup (dict_keys nb) -> ~ In b seen -> dict_get b nb = Some w ->
  pair_edges a b (map (fun p => (a, fst p, snd p))
                      (filter (fun p => negb (str_mem (fst p) seen)) nb))
  = [(a, b, w)].
Proof.
  intros Hnd Hseen. apply str_mem_false in Hseen.
  induction nb as [|[k v] nb IH]; simpl; intros Hget; [discriminate|].
  inversion Hnd as [|? ? Hnotin Hnd']; subst.
  destruct (b =? k) eqn:E.
  - apply String.eqb_eq in E. subst k. inversion Hget; subst.
    rewrite Hseen. simpl. unfold pair_edges at 1. simpl.
    rewrite same_pair_refl. f_equal.
    apply row_miss. now apply dict_get_None_keys.
  - destruct (negb (str_mem k seen)); [|now apply IH].
    simpl. unfold pair_edges at 1. simpl.
    destruct (same_pair a b a k) eqn:Ek.
    + apply same_pair_first in Ek. subst k. now rewrite String.eqb_refl in E.
    + now apply IH.
Qed.

(** The row of a node that is neither [a] nor [b]. *)
Lemma row_other (a b n : string) (es : list (string * Q)) :
  (n =? a) = false -> (n =? b) = false ->
  pair_edges a b (map (fun p => (n, fst p, snd p)) es) = [].
Proof.
  intros Ha Hb. apply filter_all_false. intros e Hin.
  apply in_map_iff in Hin. destruct Hin as [[m w] [<- _]]. simpl.
  unfold same_pair. now rewrite Ha, Hb.
Qed.

Lemma edges_from_pair (l : nx.Graph) (seen : list string) (a b : string) (w : Q) :
  NoDup (dict_keys l) ->
  Forall (fun p => NoDup (dict_keys (snd p))) l ->
  ~ In a seen -> ~ In b seen ->
  nx.weight l a b = Some w -> nx.weight l b a = Some w ->
  exists x y, pair_edges a b (nx.edges_from l seen) = [(x, y, w)]
              /\ same_pair a b x y = true.
Proof.
  revert seen. induction l as [|[n nb] l IH]; intros seen Hnd Hin Ha Hb Hab Hba.
  - discriminate.
  - inversion Hnd as [|? ? Hnotin Hnd']; subst.
    inversion Hin as [|? ? Hnb Hin']; subst. simpl in Hnb.
    simpl nx.edges_from. rewrite pair_edges_app.
    unfold nx.weight in Hab, Hba. simpl in Hab, Hba.
    destruct (a =? n) eqn:Ean.
    + apply String.eqb_eq in Ean. subst n.
      exists a, b. rewrite (row_hit a b nb seen w Hnb Hb Hab).
      rewrite pair_edges_seen; [|now left|assumption].
      split; [reflexivity | apply same_pair_refl].
    + destruct (b =? n) eqn:Ebn.
      * apply String.eqb_eq in Ebn. subst n.
        exists b, a. rewrite !(pair_edges_sym a b).
        rewrite (row_hit b a nb seen w Hnb Ha Hba).
        rewrite pair_edges_seen; [|now left|assumption].
        split; [reflexivity|]. rewrite same_pair_sym. apply same_pair_refl.
      * rewrite row_other by (now apply eqb_false_sym). simpl.
        apply IH; try assumption.
        -- intros [<- | H]; [now rewrite String.eqb_refl in Ean | now apply Ha].
        -- intros [<- | H]; [now rewrite String.eqb_refl in Ebn | now apply Hb].
Qed.

(** A weighted pair of a well-formed graph is listed exactly once. *)
Lemma edges_pair (G : nx.Graph) (a b : string) (w : Q) :
  wf G -> nx.weight G a b = Some w ->
  exists x y, pair_edges a b (nx.edges G) = [(x, y, w)]
              /\ same_pair a b x y = true.
Proof.
  intros [Hk Hi Hs Hn] Hab. unfold nx.edges.
  apply edges_from_pair; auto. now rewrite <- Hs.
Qed.

(** Every listed edge carries the weight stored for its pair. *)
Lemma edges_weight (G : nx.Graph) (x y : string) (w : Q) :
  wf G -> In (x, y, w) (nx.edges G) -> nx.weight G x y = Some w.
Proof.
  intros [Hk Hi Hs Hn] Hin.
  destruct (edges_from_In _ _ _ _ _ Hin) as [nb [Hx [Hy _]]].
  unfold nx.weight. rewrite (In_dict_get _ _ _ Hk Hx).
  apply In_dict_get; [|assumption].
  rewrite Forall_forall in Hi. exact (Hi _ Hx).
Qed.

Lemma same_pair_endpoint (a b x y : string) :
  same_pair a b x y = true -> x = a \/ y = a.
Proof.
  unfold same_pair. intros H. apply orb_prop in H.
  destruct H as [H | H]; apply andb_prop in H; destruct H as [H1 H2];
    apply String.eqb_eq in H1, H2; auto.
Qed.

(** Every node of a well-formed graph is an end of a listed edge. *)
Lemma node_has_edge (G : nx.Graph) (n : string) :
  wf G -> In n (nx.nodes G) ->
  exists x y w, In (x, y, w) (nx.edges G) /\ (x = n \/ y = n).
Proof.
  intros HG Hn. destruct (dict_get n G) as [nb|] eqn:E.
  - destruct nb as [|[m w] nb].
    + exfalso. exact (wf_nonempty G HG _ _ E eq_refl).
    + assert (Hw : nx.weight G n m = Some w).
      { unfold nx.weight. rewrite E. simpl. now rewrite String.eqb_refl. }
      destruct (edges_pair G n m w HG Hw) as [x [y [Hf Hp]]].
      exists x, y, w. split.
      * assert (Hin : In (x, y, w) (pair_edges n m (nx.edges G)))
          by (rewrite Hf; now left).
        unfold pair_edges in Hin. apply filter_In in Hin. tauto.
      * now apply same_pair_endpoint in Hp.
  - apply dict_get_None_keys in E. contradiction.
Qed.

(** ** [create_network_graph] *)

Lemma Qlt_bool_iff (a b : Q) : Qlt_bool a b = true <-> (a < b)%Q.
Proof.
  unfold Qlt_bool. rewrite negb_true_iff.
  split.
  - intros H. apply Qnot_le_lt. intros Hle.
    apply Qle_bool_iff in Hle. congruence.
  - intros H. destruct (Qle_bool b a) eqn:E; [|reflexivity].
    apply Qle_bool_iff in E. exfalso. exact (Qlt_not_le _ _ H E).
Qed.

Lemma Qlt_bool_false (a b : Q) : Qlt_bool a b = false <-> (b <= a)%Q.
Proof.
  unfold Qlt_bool. rewrite negb_false_iff. apply Qle_bool_iff.
Qed.

Lemma same_pair_comm (a b x y : string) : same_pair a b x y = same_pair x y a b.
Proof.
  unfold same_pair.
  rewrite (String.eqb_sym x a), (String.eqb_sym y b),
          (String.eqb_sym x b), (String.eqb_sym y a).
  now rewrite (andb_comm (b =? x)).
Qed.

Section Builder.

Context {env : PyEnv}.

Lemma add_transactions_app (df : DataFrame) (token : bool) (l1 l2 : list Row)
  (G : nx.Graph) :
  add_transactions df token (l1 ++ l2) G
  = (G1 <- add_transactions df token l1 G ;; add_transactions df token l2 G1).
Proof.
  revert G. induction l1 as [|tx l1 IH]; intros G; simpl; [reflexivity|].
  destruct (tx_valueMajor df token tx) as [v|e]; simpl; [|reflexivity].
  destruct (Qlt_bool 0 v); apply IH.
Qed.

(** The loop keeps the shape of the graph and only stores positive weights. *)
Lemma add_transactions_wf (df : DataFrame) (token : bool) (txs : list Row)
  (G G' : nx.Graph) :
  add_transactions df token txs G = Ok G' ->
  wf G -> positive G -> wf G' /\ positive G'.
Proof.
  revert G. induction txs as [|tx txs IH]; simpl; intros G H HG HP.
  - inversion H; subst. now split.
  - apply bind_Ok in H. destruct H as [v [_ H]].
    destruct (Qlt_bool 0 v) eqn:E.
    + apply (IH _ H).
      * now apply wf_add_edge.
      * apply positive_add_edge; [assumption | now apply Qlt_bool_iff].
    + now apply (IH _ H).
Qed.

(** Transactions that are not a positive transfer between [a] and [b]
    leave the weight between [a] and [b] as it is. *)
Lemma add_transactions_keeps (df : DataFrame) (token : bool) (a b : string)
  (txs : list Row) (G G' : nx.Graph) :
  (forall tx', In tx' txs ->
     same_pair a b (tx_from tx') (tx_to tx') = true ->
     forall w', tx_valueMajor df token tx' = Ok w' -> ~ (0 < w')%Q) ->
  add_transactions df token txs G = Ok G' ->
  nx.weight G' a b = nx.weight G a b.
Proof.
  revert G. induction txs as [|tx txs IH]; simpl; intros G Hlast H.
  - now inversion H.
  - apply bind_Ok in H. destruct H as [v [Hv H]].
    assert (Hrest : forall tx', In tx' txs ->
              same_pair a b (tx_from tx') (tx_to tx') = true ->
              forall w', tx_valueMajor df token tx' = Ok w' -> ~ (0 < w')%Q)
      by (intros; eapply Hlast; eauto).
    destruct (Qlt_bool 0 v) eqn:E.
    + rewrite (IH _ Hrest H), weight_add_edge.
      destruct (same_pair (tx_from tx) (tx_to tx) a b) eqn:Ep; [|reflexivity].
      rewrite same_pair_comm in Ep. apply Qlt_bool_iff in E.
      exfalso. exact (Hlast tx (or_introl eq_refl) Ep v Hv E).
    + exact (IH _ Hrest H).
Qed.

(** A weight, once stored, is only ever overwritten. *)
Lemma add_transactions_defined (df : DataFrame) (token : bool) (a b : string)
  (txs : list Row) (G G' : nx.Graph) (w : Q) :
  add_transactions df token txs G = Ok G' ->
  nx.weight G a b = Some w -> exists w', nx.weight G' a b = Some w'.
Proof.
  revert G w. induction txs as [|tx txs IH]; simpl; intros G w H Hw.
  - inversion H; subst. eauto.
  - apply bind_Ok in H. destruct H as [v [Hv H]].
    destruct (Qlt_bool 0 v).
    + assert (Hw' : exists w1, nx.weight
                 (nx.add_edge (tx_from tx) (tx_to tx) v G) a b = Some w1).
      { rewrite weight_add_edge.
        destruct (same_pair (tx_from tx) (tx_to tx) a b); eauto. }
      destruct Hw' as [w1 Hw1]. exact (IH _ _ H Hw1).
    + exact (IH _ _ H Hw).
Qed.

End Builder.

Section BuilderClaims.

Context {env : PyEnv}.

Lemma tx_valueMajor_columns (df df' : DataFrame) (token : bool) (tx : Row) :
  columns df = columns df' ->
  tx_valueMajor df token tx = tx_valueMajor df' token tx.
Proof. intros H. unfold tx_valueMajor, getitem. now rewrite H. Qed.

Lemma add_transactions_columns (df df' : DataFrame) (token : bool)
  (txs : list Row) (G : nx.Graph) :
  columns df = columns df' ->
  add_transactions df token txs G = add_transactions df' token txs G.
Proof.
  intros H. revert G. induction txs as [|tx txs IH]; intros G; simpl; [reflexivity|].
  rewrite (tx_valueMajor_columns df df' token tx H).
  destruct (tx_valueMajor df' token tx) as [v|e]; simpl; [|reflexivity].
  destruct (Qlt_bool 0 v); apply IH.
Qed.

(** A transaction whose value is not positive can be dropped from the
    input: the loop leaves the graph as it is. *)
Lemma add_transactions_skip (df : DataFrame) (token : bool)
  (pre post : list Row) (tx : Row) (v : Q) (G : nx.Graph) :
  tx_valueMajor df token tx = Ok v -> (v <= 0)%Q ->
  add_transactions df token (pre ++ tx :: post) G
  = add_transactions df token (pre ++ post) G.
Proof.
  intros Hv Hle. rewrite !add_transactions_app.
  destruct (add_transactions df token pre G) as [G1|e]; simpl; [|reflexivity].
  rewrite Hv. simpl. apply Qlt_bool_false in Hle. now rewrite Hle.
Qed.

Lemma create_network_graph_wf (df : DataFrame) (token : bool) (G : nx.Graph) :
  create_network_graph df token = Ok G -> wf G /\ positive G.
Proof.
  intros H. exact (add_transactions_wf _ _ _ _ _ H wf_empty positive_empty).
Qed.

(** The builder returns a graph when every record converts. *)
Lemma add_transactions_total (df : DataFrame) (token : bool) (txs : list Row)
  (G : nx.Graph) :
  (forall tx, In tx txs -> exists v, tx_valueMajor df token tx = Ok v) ->
  exists G', add_transactions df token txs G = Ok G'.
Proof.
  revert G. induction txs as [|tx txs IH]; intros G H; simpl; [eauto|].
  destruct (H tx (or_introl eq_refl)) as [v Hv]. rewrite Hv. simpl.
  destruct (Qlt_bool 0 v); apply IH; intros; apply H; now right.
Qed.

Lemma create_network_graph_total (df : DataFrame) (token : bool) :
  converts df token -> exists G, create_network_graph df token = Ok G.
Proof. intros H. now apply add_transactions_total. Qed.

Lemma last_positive_weight (df : DataFrame) (token : bool) (G : nx.Graph)
  (pre post : list Row) (tx : Row) (w : Q) :
  create_network_graph df token = Ok G ->
  rows df = pre ++ tx :: post ->
  tx_valueMajor df token tx = Ok w ->
  (0 < w)%Q ->
  (forall tx', In tx' post ->
     same_pair (tx_from tx) (tx_to tx) (tx_from tx') (tx_to tx') = true ->
     forall w', tx_valueMajor df token tx' = Ok w' -> ~ (0 < w')%Q) ->
  exists x y,
    pair_edges (tx_from tx) (tx_to tx) (nx.edges G) = [(x, y, w)]
    /\ same_pair (tx_from tx) (tx_to tx) x y = true.
Proof.
  intros HG Hrows Hw Hpos Hlast.
  destruct (create_network_graph_wf _ _ _ HG) as [Hwf _].
  apply edges_pair; [assumption|].
  unfold create_network_graph in HG. rewrite Hrows, add_transactions_app in HG.
  apply bind_Ok in HG. destruct HG as [G1 [_ HG]].
  simpl in HG. rewrite Hw in HG. simpl in HG.
  apply Qlt_bool_iff in Hpos. rewrite Hpos in HG.
  rewrite (add_transactions_keeps _ _ _ _ _ _ _ Hlast HG), weight_add_edge.
  now rewrite same_pair_refl.
Qed.

(** C1. Last write wins.  For a frame whose records all convert,
    [create_network_graph] returns a graph, and when [tx] is the last
    transaction with a positive value between its two addresses (in either
    direction), [G.edges(data=True)] lists exactly one edge between them,
    and the weight of that edge is the converted value of [tx], whatever
    the earlier transactions of the pair were worth. *)
Theorem C1_last_write_wins (df : DataFrame) (token : bool)
  (pre post : list Row) (tx : Row) (w : Q) :
  converts df token ->
  rows df = pre ++ tx :: post ->
  tx_valueMajor df token tx = Ok w ->
  (0 < w)%Q ->
  (forall tx', In tx' post ->
     same_pair (tx_from tx) (tx_to tx) (tx_from tx') (tx_to tx') = true ->
     forall w', tx_valueMajor df token tx' = Ok w' -> ~ (0 < w')%Q) ->
  exists G x y,
    create_network_graph df token = Ok G
    /\ pair_edges (tx_from tx) (tx_to tx) (nx.edges G) = [(x, y, w)]
    /\ same_pair (tx_from tx) (tx_to tx) x y = true.
Proof.
  intros Hall Hrows Hw Hpos Hlast.
  destruct (create_network_graph_total _ _ Hall) as [G HG].
  destruct (last_positive_weight _ _ _ _ _ _ _ HG Hrows Hw Hpos Hlast)
    as [x [y H]].
  now exists G, x, y.
Qed.

(** C2. For a frame whose records all convert, [create_network_graph]
    returns a graph in which every edge has a weight greater than 0 and
    every node is an end of an edge; a transaction whose converted value is
    at most 0 adds nothing: the graph is the one of the input without that
    transaction. *)
Theorem C2_positive_weights_no_isolated_node (df : DataFrame) (token : bool) :
  converts df token ->
  exists G,
    create_network_graph df token = Ok G
    /\ (forall x y w, In (x, y, w) (nx.edges G) -> (0 < w)%Q)
    /\ (forall n, In n (nx.nodes G) ->
          exists x y w, In (x, y, w) (nx.edges G) /\ (x = n \/ y = n))
    /\ (forall pre post tx v,
          rows df = pre ++ tx :: post ->
          tx_valueMajor df token tx = Ok v -> (v <= 0)%Q ->
          create_network_graph
            {| columns := columns df; rows := pre ++ post |} token = Ok G).
Proof.
  intros Hall. destruct (create_network_graph_total _ _ Hall) as [G HG].
  exists G. split; [assumption|].
  destruct (create_network_graph_wf _ _ _ HG) as [Hwf Hpos].
  split; [|split].
  - intros x y w Hin. exact (Hpos _ _ _ (edges_weight _ _ _ _ Hwf Hin)).
  - intros n Hn. now apply node_has_edge.
  - intros pre post tx v Hrows Hv Hle.
    unfold create_network_graph in *. simpl.
    rewrite (add_transactions_columns _ df) by reflexivity.
    rewrite Hrows in HG.
    now rewrite (add_transactions_skip _ _ _ _ _ _ _ Hv Hle) in HG.
Qed.

End BuilderClaims.

Lemma sample_records_convert (df : DataFrame) (token : bool) :
  forallb (fun tx => match tx_valueMajor (env := decimal_env) df token tx with
                     | Ok _ => true
                     | Raise _ => false
                     end) (rows df) = true ->
  converts (env := decimal_env) df token.
Proof.
  intros H tx Htx. rewrite forallb_forall in H. specialize (H tx Htx).
  destruct (tx_valueMajor df token tx) as [v|e]; [eauto | discriminate].
Qed.

(** Two transfers between the same two addresses, worth one and then
    three: a single edge, of weight three (not four). *)
Lemma C1_last_write_wins_witness :
  exists G x y,
    create_network_graph (env := decimal_env)
      (pd_DataFrame [tx_ab_1; tx_ba_3]) false = Ok G
    /\ pair_edges "0xB" "0xA" (nx.edges G) = [(x, y, three_eth)]
    /\ same_pair "0xB" "0xA" x y = true.
Proof.
  apply (C1_last_write_wins (env := decimal_env)
           (pd_DataFrame [tx_ab_1; tx_ba_3]) false [tx_ab_1] [] tx_ba_3
           three_eth).
  - apply sample_records_convert. reflexivity.
  - reflexivity.
  - vm_compute. reflexivity.
  - reflexivity.
  - intros tx' [].
Defined.

(** The zero-value transfer from 0xA to 0xC leaves no trace: two edges,
    three nodes, 0xC is not one of them. *)
Lemma C2_positive_weights_no_isolated_node_witness :
  exists G,
    create_network_graph (env := decimal_env)
      (pd_DataFrame [tx_ab_1; tx_ac_0; tx_dd_5]) false = Ok G
    /\ nx.edges G = [("0xA", "0xB", one_eth); ("0xD", "0xD", five_eth)]
    /\ nx.nodes G = ["0xA"; "0xB"; "0xD"]
    /\ (forall x y w, In (x, y, w) (nx.edges G) -> (0 < w)%Q)
    /\ (forall n, In n (nx.nodes G) ->
          exists x y w, In (x, y, w) (nx.edges G) /\ (x = n \/ y = n)).
Proof.
  destruct (C2_positive_weights_no_isolated_node (env := decimal_env)
              (pd_DataFrame [tx_ab_1; tx_ac_0; tx_dd_5]) false)
    as [G [HG [Hpos [Hnodes _]]]].
  - apply sample_records_convert. reflexivity.
  - exists G. split; [exact HG|].
    assert (H := HG). vm_compute in H. inversion H; subst. clear H.
    split; [reflexivity|]. split; [reflexivity|].
    split; [exact Hpos | exact Hnodes].
Defined.

(** ** Marker sizes *)

Lemma ln_le (x y : R) : (0 < x)%R -> (x <= y)%R -> (ln x <= ln y)%R.
Proof.
  intros Hx [Hlt | ->].
  - left. now apply ln_increasing.
  - right. reflexivity.
Qed.



Section Styler.

Context {env : PyEnv}.

Lemma draw_nodes_sizes (G : nx.Graph) (pos : dict (Q * Q)) (center : string)
  (ns : list string) (xs ys : list Q) (texts : list string) (sizes : list R) :
  draw_nodes G pos center ns = Ok (xs, ys, texts, sizes) ->
  mapM (node_size G center) ns = Ok sizes /\ texts = ns.
Proof.
  revert xs ys texts sizes.
  induction ns as [|n ns IH]; simpl; intros xs ys texts sizes H.
  - inversion H; subst. now split.
  - apply bind_Ok in H. destruct H as [p [_ H]].
    apply bind_Ok in H. destruct H as [size [Hsize H]].
    apply bind_Ok in H. destruct H as [[[[xs' ys'] texts'] sizes'] [Htl H]].
    inversion H; subst. destruct (IH _ _ _ _ Htl) as [IH1 IH2].
    rewrite Hsize. simpl. rewrite IH1. simpl. split; congruence.
Qed.

(** The [size] list of the node trace holds [node_size] of every node, in
    the order of [G.nodes()]. *)
Lemma draw_plotly_graph_sizes (G : nx.Graph) (is_token : bool) (center : string)
  (fig : NetworkFigure) :
  draw_plotly_graph G is_token center = Ok fig ->
  mapM (node_size G center) (nx.nodes G) = Ok (node_sizes fig).
Proof.
  unfold draw_plotly_graph. intros H.
  apply bind_Ok in H. destruct H as [[[ex ey] anns] [_ H]].
  apply bind_Ok in H. destruct H as [[[[xs ys] texts] sizes] [Hn H]].
  inversion H; subst. simpl. exact (proj1 (draw_nodes_sizes _ _ _ _ _ _ _ _ Hn)).
Qed.

Lemma dict_get_keyed {V : Type} (f : string -> V) (ks : list string) (n : string) :
  In n ks -> dict_get n (map (fun k => (k, f k)) ks) = Some (f n).
Proof.
  induction ks as [|k ks IH]; simpl; intros Hin; [contradiction|].
  destruct (n =? k) eqn:E.
  - apply String.eqb_eq in E. now subst.
  - apply IH. destruct Hin as [-> | Hin]; [|assumption].
    now rewrite String.eqb_refl in E.
Qed.

(** The layout has a position for every node. *)
Lemma pos_get_layout (G : nx.Graph) (scale : Q) (n : string) :
  In n (nx.nodes G) ->
  pos_get (kamada_kawai_layout G scale) n = Ok (kamada_kawai_solve G scale n).
Proof.
  intros Hin. unfold pos_get, kamada_kawai_layout.
  now rewrite (dict_get_keyed (kamada_kawai_solve G scale) _ _ Hin).
Qed.

(** Both ends of a listed edge are nodes. *)
Lemma edges_ends_nodes (G : nx.Graph) (u v : string) (w : Q) :
  wf G -> In (u, v, w) (nx.edges G) ->
  In u (nx.nodes G) /\ In v (nx.nodes G).
Proof.
  intros HG Hin. split.
  - destruct (edges_from_In _ _ _ _ _ Hin) as [nb [Hu _]].
    unfold nx.nodes, dict_keys. change u with (fst (u, nb)). now apply in_map.
  - assert (Hw := edges_weight _ _ _ _ HG Hin).
    rewrite (wf_sym G HG) in Hw. unfold nx.weight in Hw.
    destruct (dict_get v G) as [nb|] eqn:E; [|discriminate].
    exact (dict_get_keys _ _ _ E).
Qed.

Lemma draw_edges_total (G : nx.Graph) (scale : Q) (is_token : bool)
  (es : list nx.edge) :
  (forall u v w, In (u, v, w) es -> In u (nx.nodes G) /\ In v (nx.nodes G)) ->
  exists r, draw_edges (kamada_kawai_layout G scale) is_token es = Ok r.
Proof.
  induction es as [|[[u v] w] es IH]; intros H; simpl; [eauto|].
  destruct (H u v w (or_introl eq_refl)) as [Hu Hv].
  rewrite (pos_get_layout _ _ _ Hu), (pos_get_layout _ _ _ Hv). simpl.
  destruct IH as [[[xs ys] anns] Hr]; [intros; eapply H; right; eauto|].
  rewrite Hr. simpl.
  destruct (kamada_kawai_solve G scale u), (kamada_kawai_solve G scale v).
  eauto.
Qed.

Lemma node_size_total (G : nx.Graph) (center n : string) :
  In n (nx.nodes G) -> exists size, node_size G center n = Ok size.
Proof.
  intros Hin. unfold node_size. destruct (n =? center); [eauto|].
  unfold nx.degree. destruct (dict_get n G) eqn:E; simpl; [eauto|].
  apply dict_get_None_keys in E. contradiction.
Qed.

Lemma draw_nodes_total (G : nx.Graph) (scale : Q) (center : string)
  (ns : list string) :
  (forall n, In n ns -> In n (nx.nodes G)) ->
  exists r, draw_nodes G (kamada_kawai_layout G scale) center ns = Ok r.
Proof.
  induction ns as [|n ns IH]; intros H; simpl; [eauto|].
  rewrite (pos_get_layout _ _ _ (H n (or_introl eq_refl))). simpl.
  destruct (node_size_total G center n (H n (or_introl eq_refl))) as [size Hs].
  rewrite Hs. simpl.
  destruct IH as [[[[xs ys] texts] sizes] Hr]; [intros; apply H; now right|].
  rewrite Hr. simpl. eauto.
Qed.

(** A well-formed graph is always drawn. *)
Lemma draw_plotly_graph_total (G : nx.Graph) (is_token : bool) (center : string) :
  wf G -> exists fig, draw_plotly_graph G is_token center = Ok fig.
Proof.
  intros HG. unfold draw_plotly_graph.
  destruct (draw_edges_total G 2 is_token (nx.edges G)) as [[[ex ey] anns] He].
  { intros u v w. now apply edges_ends_nodes. }
  destruct (draw_nodes_total G 2 center (nx.nodes G)) as [[[[xs ys] ts] sz] Hn].
  { auto. }
  rewrite He, Hn. simpl. eauto.
Qed.

(** C6. The marker of the focal address has size 15 whatever its degree;
    the marker of any other node of degree [d] has size
    [min(10 + ln(d + 1), 25)], which does not decrease when the degree
    grows and never exceeds 25; a graph built with [add_edge] is drawn, and
    these are the sizes of its figure. *)
Theorem C6_marker_size (G : nx.Graph) (center n : string) (d d' : nat) :
  nx.degree G n = Some d ->
  (n =? center) = false ->
  (d <= d')%nat ->
  node_size G center center = Ok 15%R
  /\ node_size G center n = Ok (Rmin (10 + ln (INR d + 1)) 25)
  /\ (Rmin (10 + ln (INR d + 1)) 25 <= Rmin (10 + ln (INR d' + 1)) 25)%R
  /\ (Rmin (10 + ln (INR d + 1)) 25 <= 25)%R
  /\ (wf G -> forall is_token,
        exists fig,
          draw_plotly_graph G is_token center = Ok fig
          /\ mapM (node_size G center) (nx.nodes G) = Ok (node_sizes fig)).
Proof.
  intros Hdeg Hne Hle. split; [|split; [|split; [|split]]].
  - unfold node_size. now rewrite String.eqb_refl.
  - unfold node_size. rewrite Hne, Hdeg. simpl.
    now rewrite plus_INR.
  - apply Rle_min_compat_r. apply Rplus_le_compat_l.
    assert (H0 := pos_INR d). apply ln_le; [lra|].
    apply Rplus_le_compat_r. now apply le_INR.
  - apply Rbasic_fun.Rmin_r.
  - intros HG is_token.
    destruct (draw_plotly_graph_total G is_token center HG) as [fig Hfig].
    exists fig. split; [assumption|].
    exact (draw_plotly_graph_sizes _ _ _ _ Hfig).
Qed.

End Styler.

(** Node 0xB of the sample graph has one edge; 0xA is the focal address. *)
Lemma C6_marker_size_witness :
  node_size (nx.add_edge "0xA" "0xB" one_eth nx.empty) "0xA" "0xA" = Ok 15%R
  /\ node_size (nx.add_edge "0xA" "0xB" one_eth nx.empty) "0xA" "0xB"
     = Ok (Rmin (10 + ln (INR 1 + 1)) 25)
  /\ (Rmin (10 + ln (INR 1 + 1)) 25 <= Rmin (10 + ln (INR 4 + 1)) 25)%R
  /\ (Rmin (10 + ln (INR 1 + 1)) 25 <= 25)%R
  /\ exists fig,
       draw_plotly_graph (env := decimal_env)
         (nx.add_edge "0xA" "0xB" one_eth nx.empty) false "0xA" = Ok fig
       /\ mapM (node_size (nx.add_edge "0xA" "0xB" one_eth nx.empty) "0xA")
               ["0xA"; "0xB"] = Ok (node_sizes fig).
Proof.
  destruct (C6_marker_size (env := decimal_env)
              (nx.add_edge "0xA" "0xB" one_eth nx.empty) "0xA" "0xB" 1 4)
    as [H1 [H2 [H3 [H4 H5]]]].
  - reflexivity.
  - reflexivity.
  - lia.
  - repeat (split; [assumption|]).
    exact (H5 (wf_add_edge _ _ _ _ wf_empty) false).
Defined.

(** ** Self-loops *)



Section SelfLoop.

Context {env : PyEnv}.


End SelfLoop.


(** ** [fetch_transactions] and [update_graphs] on concrete answers *)

(** C3, at two inputs.  When both requests fail the callback returns two
    units, not three; when only the native list is empty the time series
    raises [KeyError] out of the callback. *)
Lemma C3_two_units_or_exception :
  update_graphs (env := decimal_env) 1 "0xA" [] server_error server_error
  = Ok [no_eth_data; no_erc20_data]
  /\ update_graphs (env := decimal_env) 1 "0xA" [] no_transactions
       (Response 200 (JsonResult [token_tx_ok]))
     = Raise (KeyError "timeStamp").
Proof. split; vm_compute; reflexivity. Qed.

(** C4, at the input of scenario C.  An answer with no token transfers
    makes [astype(int)] raise inside the [try], the handler drops the
    native frame too, and the callback returns the two placeholders; with a
    failed token request instead, the native chart and the time series are
    there, unless the zero-value filter is on: then the filter raises
    [KeyError] on the token frame, which has no column. *)
Lemma C4_empty_token_list_drops_native :
  fetch_transactions (env := decimal_env) eth_ok no_transactions
  = (empty_frame, empty_frame)
  /\ update_graphs (env := decimal_env) 1 "0xA" [] eth_ok no_transactions
     = Ok [no_eth_data; no_erc20_data]
  /\ update_graphs (env := decimal_env) 1 "0xA" [] eth_ok server_error
     = Ok [dcc_Graph (Network one_edge_figure); no_erc20_data;
           dcc_Graph (Scatter [(1000000000000%Z, one_eth)])]
  /\ update_graphs (env := decimal_env) 1 "0xA" ["hide"] eth_ok server_error
     = Raise (KeyError "value").
Proof.
  split; [vm_compute; reflexivity|].
  split; [vm_compute; reflexivity|].
  split; reflexivity.
Qed.

(** ** Malformed token records *)

Section Fetch.

Context {env : PyEnv}.

Lemma rows_pd_DataFrame (records : list Row) :
  rows (pd_DataFrame records) = records.
Proof. now destruct records. Qed.




End Fetch.



(** ** The empty graph *)

Section EmptyGraph.

Context {env : PyEnv}.



End EmptyGraph.



(** ** Sums, group keys and running sums *)

Lemma fold_left_Qplus (l : list Q) (a : Q) :
  (fold_left Qplus l a == a + fold_left Qplus l 0)%Q.
Proof.
  revert a. induction l as [|x l IH]; intros a; simpl.
  - ring.
  - rewrite (IH (a + x)%Q), (IH (0 + x)%Q). ring.
Qed.

Lemma Qsum_cons (x : Q) (l : list Q) : (Qsum (x :: l) == x + Qsum l)%Q.
Proof.
  unfold Qsum. simpl. rewrite fold_left_Qplus. ring.
Qed.

Lemma Qsum_map_ext {A : Type} (f g : A -> Q) (l : list A) :
  (forall x, In x l -> (f x == g x)%Q) ->
  (Qsum (map f l) == Qsum (map g l))%Q.
Proof.
  induction l as [|a l IH]; intros H; simpl; [reflexivity|].
  rewrite !Qsum_cons, IH, (H a (or_introl eq_refl)).
  - reflexivity.
  - intros; apply H; now right.
Qed.

Lemma Qsum_map_plus {A : Type} (f g : A -> Q) (l : list A) :
  (Qsum (map (fun x => f x + g x) l) == Qsum (map f l) + Qsum (map g l))%Q.
Proof.
  induction l as [|a l IH]; simpl.
  - unfold Qsum. simpl. ring.
  - rewrite !Qsum_cons, IH. ring.
Qed.

Lemma Qsum_map_zero {A : Type} (l : list A) :
  (Qsum (map (fun _ => 0) l) == 0)%Q.
Proof.
  induction l as [|a l IH]; simpl; [reflexivity|].
  rewrite Qsum_cons, IH. ring.
Qed.

(** The one key [k0] of a duplicate-free list picks its value once. *)
Lemma Qsum_pick (k0 : Z) (v : Q) (ks : list Z) :
  NoDup ks ->
  (Qsum (map (fun k => if (k0 =? k)%Z then v else 0) ks)
   == if existsb (Z.eqb k0) ks then v else 0)%Q.
Proof.
  induction ks as [|k ks IH]; intros Hnd; simpl; [reflexivity|].
  inversion Hnd as [|? ? Hnotin Hnd']; subst.
  rewrite Qsum_cons, (IH Hnd'). destruct (k0 =? k)%Z eqn:E; simpl.
  - apply Z.eqb_eq in E. subst k.
    destruct (existsb (Z.eqb k0) ks) eqn:Ex; [|ring].
    apply existsb_exists in Ex. destruct Ex as [x [Hx Hk]].
    apply Z.eqb_eq in Hk. subst x. contradiction.
  - ring.
Qed.

Lemma insert_key_In (x k : Z) (ks : list Z) :
  In x (insert_key k ks) <-> x = k \/ In x ks.
Proof.
  induction ks as [|k' ks IH]; simpl.
  - intuition.
  - destruct (k <? k')%Z; [simpl; intuition|].
    destruct (k =? k')%Z eqn:E.
    + apply Z.eqb_eq in E. subst. simpl. intuition.
    + simpl. rewrite IH. intuition.
Qed.

Lemma insert_key_sorted (k : Z) (ks : list Z) :
  StronglySorted Z.lt ks -> StronglySorted Z.lt (insert_key k ks).
Proof.
  induction ks as [|k' ks IH]; simpl; intros Hs.
  - repeat constructor.
  - inversion Hs as [|? ? Hs' Hall]; subst.
    destruct (k <? k')%Z eqn:Elt.
    + apply Z.ltb_lt in Elt. constructor; [assumption|].
      constructor; [assumption|].
      eapply Forall_impl; [|exact Hall]. intros; lia.
    + destruct (k =? k')%Z eqn:Eeq; [assumption|].
      apply Z.ltb_ge in Elt. apply Z.eqb_neq in Eeq.
      constructor; [now apply IH|].
      rewrite Forall_forall in *. intros x Hx.
      apply insert_key_In in Hx. destruct Hx as [-> | Hx]; [lia | auto].
Qed.

Lemma sorted_unique_In (x : Z) (l : list Z) : In x (sorted_unique l) <-> In x l.
Proof.
  unfold sorted_unique. induction l as [|a l IH]; simpl; [tauto|].
  rewrite insert_key_In, IH. intuition.
Qed.

Lemma sorted_unique_sorted (l : list Z) : StronglySorted Z.lt (sorted_unique l).
Proof.
  unfold sorted_unique. induction l as [|a l IH]; simpl.
  - constructor.
  - now apply insert_key_sorted.
Qed.

Lemma sorted_NoDup (ks : list Z) : StronglySorted Z.lt ks -> NoDup ks.
Proof.
  induction 1 as [|k ks Hs IH Hall]; constructor; [|assumption].
  rewrite Forall_forall in Hall. intros Hin. specialize (Hall _ Hin). lia.
Qed.

Lemma cumsum_from_keys (acc : Q) (l : list (Z * Q)) :
  map fst (cumsum_from acc l) = map fst l.
Proof.
  revert acc. induction l as [|[k v] l IH]; intros acc; simpl; [reflexivity|].
  now rewrite IH.
Qed.

Lemma cumsum_keys (l : list (Z * Q)) : map fst (cumsum l) = map fst l.
Proof. destruct l as [|[k v] l]; simpl; [reflexivity|]. now rewrite cumsum_from_keys. Qed.

(** Each entry of the running sum is the entry before it plus the value of
    its own key. *)
Lemma cumsum_from_step (acc : Q) (l : list (Z * Q)) (pre post : list (Z * Q))
  (p1 p2 : Z * Q) :
  cumsum_from acc l = pre ++ p1 :: p2 :: post ->
  exists g, In (fst p2, g) l /\ snd p2 = (snd p1 + g)%Q.
Proof.
  revert acc pre. induction l as [|[k v] l IH]; intros acc pre H; simpl in H.
  - destruct pre; discriminate.
  - destruct pre as [|p pre]; simpl in H.
    + inversion H as [[Hp1 Hrest]]. destruct l as [|[k2 v2] l]; simpl in Hrest;
        [discriminate|].
      inversion Hrest; subst. simpl. exists v2. split; [right; now left | reflexivity].
    + inversion H as [[Hp Hrest]]. destruct (IH _ _ Hrest) as [g [Hin Hg]].
      exists g. split; [now right | assumption].
Qed.

Lemma cumsum_step (l : list (Z * Q)) (pre post : list (Z * Q)) (p1 p2 : Z * Q) :
  cumsum l = pre ++ p1 :: p2 :: post ->
  exists g, In (fst p2, g) l /\ snd p2 = (snd p1 + g)%Q.
Proof.
  destruct l as [|[k v] l]; simpl; intros H.
  - destruct pre; discriminate.
  - destruct pre as [|p pre]; simpl in H.
    + inversion H as [[Hp1 Hrest]]. destruct l as [|[k2 v2] l]; simpl in Hrest;
        [discriminate|].
      inversion Hrest; subst. simpl. exists v2. split; [right; now left | reflexivity].
    + inversion H as [[Hp Hrest]].
      destruct (cumsum_from_step _ _ _ _ _ _ Hrest) as [g [Hin Hg]].
      exists g. split; [now right | assumption].
Qed.

Lemma sum_upto_below (t : Z) (l : list (Z * Q)) :
  Forall (Z.lt t) (map fst l) -> sum_upto t l = 0%Q.
Proof.
  intros H. unfold sum_upto. rewrite filter_all_false; [reflexivity|].
  intros [k v] Hin. simpl. apply Z.leb_gt.
  rewrite Forall_forall in H. apply H. change k with (fst (k, v)).
  now apply in_map.
Qed.

Lemma sum_upto_cons_le (t k : Z) (v : Q) (l : list (Z * Q)) :
  (k <= t)%Z -> (sum_upto t ((k, v) :: l) == v + sum_upto t l)%Q.
Proof.
  intros H. unfold sum_upto. simpl. apply Z.leb_le in H. rewrite H. simpl.
  apply Qsum_cons.
Qed.

(** With ascending keys, the running sum at [t] is the sum of the values
    of the keys up to [t]. *)
Lemma cumsum_from_upto (acc : Q) (l : list (Z * Q)) (t : Z) (c : Q) :
  StronglySorted Z.lt (map fst l) ->
  In (t, c) (cumsum_from acc l) -> (c == acc + sum_upto t l)%Q.
Proof.
  revert acc. induction l as [|[k v] l IH]; intros acc Hs Hin; simpl in *;
    [contradiction|].
  inversion Hs as [|? ? Hs' Hall]; subst.
  destruct Hin as [Heq | Hin].
  - inversion Heq; subst. rewrite sum_upto_cons_le by lia.
    rewrite (sum_upto_below t l Hall). ring.
  - assert (Hk : (k < t)%Z).
    { rewrite Forall_forall in Hall. apply Hall.
      rewrite <- (cumsum_from_keys (acc + v)%Q l).
      change t with (fst (t, c)). now apply in_map. }
    rewrite (IH _ Hs' Hin), sum_upto_cons_le by lia. ring.
Qed.

Lemma cumsum_upto (l : list (Z * Q)) (t : Z) (c : Q) :
  StronglySorted Z.lt (map fst l) ->
  In (t, c) (cumsum l) -> (c == sum_upto t l)%Q.
Proof.
  destruct l as [|[k v] l]; simpl; intros Hs Hin; [contradiction|].
  inversion Hs as [|? ? Hs' Hall]; subst.
  destruct Hin as [Heq | Hin].
  - inversion Heq; subst. rewrite sum_upto_cons_le by lia.
    rewrite (sum_upto_below t l Hall). ring.
  - assert (Hk : (k < t)%Z).
    { rewrite Forall_forall in Hall. apply Hall.
      rewrite <- (cumsum_from_keys v l).
      change t with (fst (t, c)). now apply in_map. }
    rewrite (cumsum_from_upto _ _ _ _ Hs' Hin), sum_upto_cons_le by lia.
    reflexivity.
Qed.

(** ** The time series *)

Section TimeSeries.

Context {env : PyEnv}.

Lemma time_column_ok (df : DataFrame) :
  str_mem "timeStamp" (columns df) = true ->
  (forall r, In r (rows df) -> parses r) ->
  time_column df = Ok (map raw_time (rows df)).
Proof.
  intros Hcol Hp. unfold time_column, getitem. rewrite Hcol. simpl.
  apply mapM_total. intros r Hr. destruct (Hp r Hr) as [Ht _].
  unfold raw_time. now destruct (pd_to_datetime (tx_timeStamp r)).
Qed.

Lemma value_column_ok (df : DataFrame) :
  str_mem "value" (columns df) = true ->
  (forall r, In r (rows df) -> parses r) ->
  value_column df = Ok (map raw_ether (rows df)).
Proof.
  intros Hcol Hp. unfold value_column, getitem. rewrite Hcol. simpl.
  apply mapM_total. intros r Hr. destruct (Hp r Hr) as [_ Hv].
  unfold raw_ether. now destruct (py_float (tx_value r)).
Qed.

Lemma combine_map {A B C : Type} (f : A -> B) (g : A -> C) (l : list A) :
  combine (map f l) (map g l) = map (fun a => (f a, g a)) l.
Proof. induction l as [|a l IH]; simpl; [reflexivity | now rewrite IH]. Qed.

Lemma group_values_rows (t : Z) (rs : list Row) :
  group_values t (dropna (map (fun r => (raw_time r, raw_ether r)) rs))
  = map raw_ether (filter (at_time t) rs).
Proof.
  unfold group_values, at_time.
  induction rs as [|r rs IH]; simpl; [reflexivity|].
  destruct (raw_time r) as [t'|]; simpl; [|exact IH].
  destruct (t' =? t)%Z; simpl; now rewrite IH.
Qed.

Lemma dropna_keys (rs : list Row) :
  map fst (dropna (map (fun r => (raw_time r, raw_ether r)) rs)) = times_of rs.
Proof.
  unfold times_of. induction rs as [|r rs IH]; simpl; [reflexivity|].
  destruct (raw_time r) as [t'|]; simpl; now rewrite IH.
Qed.

Lemma groupby_sum_rows (rs : list Row) :
  groupby_sum (dropna (map (fun r => (raw_time r, raw_ether r)) rs))
  = groups_of rs.
Proof.
  unfold groupby_sum, groups_of, group_total. rewrite dropna_keys.
  apply map_ext. intros k. now rewrite group_values_rows.
Qed.

(** When the frame has the two columns and every record parses, the time
    series is computed, and it is the running sum of the group totals. *)
Lemma time_series_ok (df : DataFrame) :
  str_mem "timeStamp" (columns df) = true ->
  str_mem "value" (columns df) = true ->
  (forall r, In r (rows df) -> parses r) ->
  time_series df = Ok (cumsum (groups_of (rows df))).
Proof.
  intros Ht Hv Hp. unfold time_series.
  rewrite (time_column_ok df Ht Hp), (value_column_ok df Hv Hp). simpl.
  now rewrite combine_map, groupby_sum_rows.
Qed.

Lemma groups_of_keys (rs : list Row) :
  map fst (groups_of rs) = sorted_unique (times_of rs).
Proof. unfold groups_of. rewrite map_map. simpl. apply map_id. Qed.

Lemma In_groups_of (rs : list Row) (t : Z) (g : Q) :
  In (t, g) (groups_of rs) -> g = group_total rs t.
Proof.
  unfold groups_of. intros H. apply in_map_iff in H.
  destruct H as [k [Heq _]]. now inversion Heq.
Qed.

Lemma sum_upto_keyed (F : Z -> Q) (t : Z) (ks : list Z) :
  sum_upto t (map (fun k => (k, F k)) ks)
  = Qsum (map F (filter (fun k => (k <=? t)%Z) ks)).
Proof.
  unfold sum_upto. f_equal.
  induction ks as [|k ks IH]; simpl; [reflexivity|].
  destruct (k <=? t)%Z; simpl; now rewrite IH.
Qed.

Lemma group_total_cons (r : Row) (rs : list Row) (k : Z) :
  (group_total (r :: rs) k
   == (if at_time k r then raw_ether r else 0) + group_total rs k)%Q.
Proof.
  unfold group_total. simpl. destruct (at_time k r); simpl.
  - apply Qsum_cons.
  - ring.
Qed.

Lemma total_upto_cons (r : Row) (rs : list Row) (t : Z) :
  (total_upto (r :: rs) t
   == (if upto_time t r then raw_ether r else 0) + total_upto rs t)%Q.
Proof.
  unfold total_upto. simpl. destruct (upto_time t r); simpl.
  - apply Qsum_cons.
  - ring.
Qed.

Lemma existsb_filter_le (k0 t : Z) (ks : list Z) :
  In k0 ks ->
  existsb (Z.eqb k0) (filter (fun k => (k <=? t)%Z) ks) = (k0 <=? t)%Z.
Proof.
  intros Hin. destruct (k0 <=? t)%Z eqn:E.
  - apply existsb_exists. exists k0. split; [|apply Z.eqb_refl].
    apply filter_In. now split.
  - destruct (existsb _ _) eqn:Ex; [|reflexivity].
    apply existsb_exists in Ex. destruct Ex as [x [Hx Hk]].
    apply Z.eqb_eq in Hk. subst x. apply filter_In in Hx. destruct Hx. congruence.
Qed.

(** Summing the group totals of the keys up to [t] is summing the records
    up to [t]. *)
Lemma groups_total_upto (rs : list Row) (ks : list Z) (t : Z) :
  NoDup ks -> (forall t', In t' (times_of rs) -> In t' ks) ->
  (Qsum (map (group_total rs) (filter (fun k => (k <=? t)%Z) ks))
   == total_upto rs t)%Q.
Proof.
  intros Hnd. induction rs as [|r rs IH]; intros Hks.
  - rewrite (Qsum_map_ext _ (fun _ => 0%Q)) by reflexivity.
    apply Qsum_map_zero.
  - rewrite (Qsum_map_ext _
               (fun k => ((if at_time k r then raw_ether r else 0)
                          + group_total rs k)%Q))
      by (intros; apply group_total_cons).
    rewrite Qsum_map_plus, total_upto_cons.
    unfold times_of in Hks. simpl in Hks.
    rewrite IH by (intros; apply Hks; apply in_or_app; now right).
    apply Qplus_comp; [|reflexivity].
    unfold at_time, upto_time. destruct (raw_time r) as [t0|].
    + rewrite Qsum_pick by (now apply NoDup_filter).
      rewrite existsb_filter_le; [reflexivity|].
      apply Hks. apply in_or_app. left. now left.
    + apply Qsum_map_zero.
Qed.

(** The third unit of the callback is the time series of the native frame
    as it is after the zero-value filter, the frame the graph was built
    from. *)
Lemma render_graphs_series (address : string) (hide_zero : list string)
  (t e t' e' : DataFrame) (out : list component) :
  apply_hide_zero hide_zero t e = Ok (t', e') ->
  df_empty t' = false ->
  render_graphs address hide_zero t e = Ok out ->
  exists a b pts,
    out = [a; b; dcc_Graph (Scatter pts)] /\ time_series t' = Ok pts.
Proof.
  intros Hf Hne H. unfold render_graphs in H. rewrite Hf in H. simpl in H.
  rewrite Hne in H. simpl in H.
  apply bind_Ok in H. destruct H as [a [_ H]].
  apply bind_Ok in H. destruct H as [b [_ H]].
  apply bind_Ok in H. destruct H as [pts [Hpts H]].
  inversion H; subst. now exists a, b, pts.
Qed.

(** C5. For a frame with the [timeStamp] and [value] columns whose records
    parse, the time series is computed from the raw [value] strings, each
    divided by [10^18] once ([raw_ether]): its times are the distinct time
    stamps of the records in ascending order; its first value is the total
    of the first group and every later value is the value before it plus
    the total of its own group; so the value at [t] is the sum over all
    records with a time stamp up to [t].  It is the series the callback
    returns for a non-empty native frame. *)
Theorem C5_time_series_is_running_total (df : DataFrame) :
  str_mem "timeStamp" (columns df) = true ->
  str_mem "value" (columns df) = true ->
  (forall r, In r (rows df) -> parses r) ->
  exists pts,
    time_series df = Ok pts
    /\ StronglySorted Z.lt (map fst pts)
    /\ (forall t, In t (map fst pts)
                 <-> exists r, In r (rows df) /\ raw_time r = Some t)
    /\ (forall p post, pts = p :: post ->
          snd p = group_total (rows df) (fst p))
    /\ (forall pre p1 p2 post, pts = pre ++ p1 :: p2 :: post ->
          snd p2 = (snd p1 + group_total (rows df) (fst p2))%Q)
    /\ (forall t c, In (t, c) pts -> (c == total_upto (rows df) t)%Q)
    /\ (forall address hide_zero t e e' out,
          apply_hide_zero hide_zero t e = Ok (df, e') ->
          df_empty df = false ->
          render_graphs address hide_zero t e = Ok out ->
          exists a b, out = [a; b; dcc_Graph (Scatter pts)]).
Proof.
  intros Ht Hv Hp. exists (cumsum (groups_of (rows df))).
  split; [now apply time_series_ok|].
  assert (Hkeys : map fst (cumsum (groups_of (rows df)))
                  = sorted_unique (times_of (rows df)))
    by (now rewrite cumsum_keys, groups_of_keys).
  split; [rewrite Hkeys; apply sorted_unique_sorted|].
  split; [|split; [|split; [|split]]].
  - intros t. rewrite Hkeys, sorted_unique_In. unfold times_of.
    rewrite in_flat_map. split; intros [r [H1 H2]]; exists r; split;
      try assumption.
    + destruct (raw_time r) as [t'|]; [|contradiction].
      destruct H2 as [-> | []]. reflexivity.
    + rewrite H2. now left.
  - intros p post H. destruct (groups_of (rows df)) as [|[k v] l] eqn:E;
      simpl in H; [discriminate|].
    inversion H; subst. simpl. apply (In_groups_of (rows df)).
    rewrite E. now left.
  - intros pre p1 p2 post H.
    destruct (cumsum_step _ _ _ _ _ H) as [g [Hin Hg]].
    now rewrite Hg, (In_groups_of _ _ _ Hin).
  - intros t c Hin.
    rewrite (cumsum_upto (groups_of (rows df)) t c); [|
      rewrite groups_of_keys; apply sorted_unique_sorted | assumption].
    unfold groups_of. rewrite sum_upto_keyed.
    apply groups_total_upto.
    + apply sorted_NoDup, sorted_unique_sorted.
    + intros t' Ht'. now apply sorted_unique_In.
  - intros address hide_zero t e e' out Hf Hne Hout.
    destruct (render_graphs_series _ _ _ _ _ _ _ Hf Hne Hout)
      as [a [b [pts [-> Hpts]]]].
    rewrite (time_series_ok df Ht Hv Hp) in Hpts. inversion Hpts; subst.
    now exists a, b.
Qed.


End TimeSeries.

Lemma sample_records_parse (rs : list Row) :
  forallb (fun r =>
             match pd_to_datetime (PyEnv := decimal_env) (tx_timeStamp r),
                   py_float (PyEnv := decimal_env) (tx_value r) with
             | Some _, Some _ => true
             | _, _ => false
             end) rs = true ->
  forall r, In r rs -> parses (env := decimal_env) r.
Proof.
  intros H r Hr. rewrite forallb_forall in H. specialize (H r Hr).
  unfold parses.
  destruct (pd_to_datetime (tx_timeStamp r)); [|discriminate].
  destruct (py_float (tx_value r)); [|discriminate].
  split; discriminate.
Qed.

(** Three, one and two units, the last two at the same time stamp: two
    points, of value three and then six. *)
Lemma C5_time_series_is_running_total_witness :
  exists pts,
    time_series (env := decimal_env) (pd_DataFrame [tx_ba_3; tx_ab_1; tx_ab_2])
    = Ok pts
    /\ map fst pts = [1000000000000; 2000000000000]%Z
    /\ Forall2 Qeq (map snd pts) [3; 6]%Q
    /\ (forall t c, In (t, c) pts ->
          (c == total_upto (env := decimal_env)
                  [tx_ba_3; tx_ab_1; tx_ab_2] t)%Q).
Proof.
  destruct (C5_time_series_is_running_total (env := decimal_env)
              (pd_DataFrame [tx_ba_3; tx_ab_1; tx_ab_2]) eq_refl eq_refl
              (sample_records_parse [tx_ba_3; tx_ab_1; tx_ab_2] eq_refl))
    as [pts [Hts [_ [_ [_ [_ [Hup _]]]]]]].
  exists pts. split; [exact Hts|].
  assert (H := Hts). vm_compute in H. inversion H; subst. clear H.
  split; [reflexivity|]. split; [|exact Hup].
  repeat constructor.
Defined.


(** ** The scenarios of the specification, run *)

(** Scenario B: a transfer of value 0 from 0xA to 0xC, then three units
    from 0xB to 0xA.  One edge, between 0xB and 0xA; 0xC is not a node. *)
Example scenario_zero_value_absent :
  create_network_graph (env := decimal_env)
    (pd_DataFrame [tx_ac_0; tx_ba_3]) false
  = Ok [("0xB", [("0xA", three_eth)]); ("0xA", [("0xB", three_eth)])].
Proof. vm_compute. reflexivity. Qed.

(** Scenario D: with the zero-value filter on, only the other transaction
    reaches the graph builder and the time series. *)
Example scenario_hide_zero :
  apply_hide_zero ["hide"] (pd_DataFrame [tx_ac_0; tx_ab_1])
                  (pd_DataFrame [tx_ac_0])
  = Ok ({| columns := ["from"; "to"; "value"; "timeStamp"]; rows := [tx_ab_1] |},
        {| columns := ["from"; "to"; "value"; "timeStamp"]; rows := [] |})
  /\ time_series (env := decimal_env)
       {| columns := ["from"; "to"; "value"; "timeStamp"]; rows := [tx_ab_1] |}
     = Ok [(1000000000000%Z, one_eth)].
Proof. split; vm_compute; reflexivity. Qed.

(** A record without a time stamp has the time [NaT]: [groupby] drops it,
    and its value is in no point of the series. *)
Example scenario_no_time_stamp :
  time_series (env := decimal_env)
    (pd_DataFrame [tx_ab_1; mk_tx "0xA" "0xB" "7000000000000000000" ""])
  = Ok [(1000000000000%Z, one_eth)].
Proof. vm_compute. reflexivity. Qed.

(* ================================================================== *)
(** * Part III: further properties of the four functions *)
(* ================================================================== *)

(** ** [fetch_transactions]: what the two frames can be *)

Lemma mapM_Forall2 {A B : Type} (f : A -> result B) (l : list A) (l' : list B) :
  mapM f l = Ok l' -> Forall2 (fun a b => f a = Ok b) l l'.
Proof.
  revert l'. induction l as [|a l IH]; simpl; intros l' H.
  - inversion H. constructor.
  - apply bind_Ok in H. destruct H as [b [Hb H]].
    apply bind_Ok in H. destruct H as [bs [Hbs H]].
    inversion H; subst. constructor; [assumption | now apply IH].
Qed.

Section FetchFrames.

Context {env : PyEnv}.

Lemma astype_int_spec (df df' : DataFrame) :
  astype_int_tokenDecimal df = Ok df' ->
  str_mem "tokenDecimal" (columns df) = true
  /\ columns df' = columns df
  /\ Forall2 converted_record (rows df) (rows df').
Proof.
  unfold astype_int_tokenDecimal, getitem. intros H.
  destruct (str_mem "tokenDecimal" (columns df)) eqn:Hcol; [|discriminate].
  simpl in H. apply bind_Ok in H. destruct H as [rs [Hrs H]].
  inversion H; subst. simpl. split; [reflexivity|]. split; [reflexivity|].
  apply mapM_Forall2 in Hrs.
  eapply Forall2_impl; [|exact Hrs]. intros r r' Hr. simpl in Hr.
  apply bind_Ok in Hr. destruct Hr as [z [Hz Hr]].
  inversion Hr; subst. now exists z.
Qed.

(** The token frame is empty, or it is the answer of a request with
    status 200 whose records all went through [astype(int)]. *)
Lemma fetch_token_frame (eth_response erc20_response : response)
  (t e : DataFrame) :
  fetch_transactions eth_response erc20_response = (t, e) ->
  e = empty_frame
  \/ exists records,
       erc20_response = Response 200 (JsonResult records)
       /\ str_mem "tokenDecimal" (columns e) = true
       /\ columns e = columns (pd_DataFrame records)
       /\ Forall2 converted_record records (rows e).
Proof.
  unfold fetch_transactions. intros H.
  destruct (fetch_try eth_response erc20_response) as [[t0 e0]|err] eqn:E;
    [|inversion H; now left].
  inversion H; subst. clear H. unfold fetch_try in E.
  apply bind_Ok in E. destruct E as [eth [_ E]].
  apply bind_Ok in E. destruct E as [erc [Herc E]].
  inversion E; subst. clear E.
  destruct erc20_response as [|code body]; [discriminate|].
  destruct (code =? 200)%Z eqn:Ecode.
  - apply Z.eqb_eq in Ecode. subst code.
    apply bind_Ok in Herc. destruct Herc as [df [Hdf Hast]].
    destruct body as [records|]; [|discriminate].
    inversion Hdf; subst. clear Hdf.
    destruct (astype_int_spec _ _ Hast) as [Hcol [Hcols Hrows]].
    right. exists records. rewrite rows_pd_DataFrame in Hrows.
    split; [reflexivity|]. split; [now rewrite Hcols|]. now split.
  - inversion Herc. now left.
Qed.

Lemma converted_record_Int (r r' : Row) :
  converted_record r r' -> exists z, tx_tokenDecimal r' = Int z.
Proof. intros [z [_ ->]]. now exists z. Qed.

Lemma Forall2_In_r {A B : Type} (P : A -> B -> Prop) (l : list A) (l' : list B)
  (b : B) :
  Forall2 P l l' -> In b l' -> exists a, In a l /\ P a b.
Proof.
  induction 1 as [|a b' l l' Hab _ IH]; simpl; [contradiction|].
  intros [<- | Hin].
  - exists a. split; [now left | assumption].
  - destruct (IH Hin) as [a' [Ha' HP]]. exists a'. split; [now right | assumption].
Qed.

(** X1. When [fetch_transactions] returns a token frame that is not empty,
    the token request answered with status 200 and a list of records, the
    frame has the [tokenDecimal] column, and its rows are those records, in
    order, each with its [tokenDecimal] replaced by the integer it
    denotes. *)
Theorem fetched_token_frame_is_converted (eth_response erc20_response : response)
  (t e : DataFrame) :
  fetch_transactions eth_response erc20_response = (t, e) ->
  df_empty e = false ->
  exists records,
    erc20_response = Response 200 (JsonResult records)
    /\ str_mem "tokenDecimal" (columns e) = true
    /\ Forall2 converted_record records (rows e)
    /\ (forall r, In r (rows e) -> exists z, tx_tokenDecimal r = Int z).
Proof.
  intros H Hne. destruct (fetch_token_frame _ _ _ _ H) as [-> | Hr];
    [discriminate|].
  destruct Hr as [records [H1 [H2 [_ H4]]]]. exists records.
  repeat (split; [assumption|]).
  intros r Hr. destruct (Forall2_In_r _ _ _ _ H4 Hr) as [r0 [_ Hc]].
  exact (converted_record_Int _ _ Hc).
Qed.


(** X3. [fetch_transactions] returns a native frame that is not empty
    beside an empty token frame exactly when the native request answered
    200 with at least one record and the token request answered with
    another status than 200: a token answer of status 200 never leaves the
    native frame alone. *)
Theorem native_frame_without_token_frame (eth_response erc20_response : response) :
  (exists t e,
     fetch_transactions eth_response erc20_response = (t, e)
     /\ df_empty t = false /\ df_empty e = true)
  <->
  (exists records code body,
     records <> []
     /\ eth_response = Response 200 (JsonResult records)
     /\ erc20_response = Response code body
     /\ code <> 200%Z).
Proof.
  split.
  - intros [t [e [H [Ht He]]]].
    destruct (fetch_token_frame _ _ _ _ H) as [-> | Hrec].
    + unfold fetch_transactions in H.
      destruct (fetch_try eth_response erc20_response) as [[t0 e0]|err] eqn:E;
        [|inversion H; subst; discriminate].
      inversion H; subst. clear H. unfold fetch_try in E.
      apply bind_Ok in E. destruct E as [eth [Heth E]].
      apply bind_Ok in E. destruct E as [erc [Herc E]].
      inversion E; subst. clear E.
      destruct eth_response as [|c1 b1]; [discriminate|].
      destruct (c1 =? 200)%Z eqn:E1; [|inversion Heth; subst; discriminate].
      apply Z.eqb_eq in E1. subst c1.
      destruct b1 as [records|]; [|discriminate].
      inversion Heth; subst. clear Heth.
      destruct erc20_response as [|c2 b2]; [discriminate|].
      destruct (c2 =? 200)%Z eqn:E2.
      * apply bind_Ok in Herc. destruct Herc as [df [_ Hast]].
        destruct (astype_int_spec _ _ Hast) as [Hcol [Hcols _]].
        simpl in Hcols. rewrite <- Hcols in Hcol. discriminate.
      * exists records, c2, b2. apply Z.eqb_neq in E2.
        split; [|now repeat split]. intros ->. discriminate.
    + destruct Hrec as [records [_ [Hcol [Hcols Hrows]]]].
      unfold df_empty in He. apply orb_prop in He. destruct He as [He | He].
      * apply Nat.eqb_eq in He. apply length_zero_iff_nil in He.
        rewrite He in Hrows. inversion Hrows; subst.
        rewrite Hcols in Hcol. discriminate.
      * apply Nat.eqb_eq in He. apply length_zero_iff_nil in He.
        rewrite He in Hcol. discriminate.
  - intros [records [code [body [Hne [-> [-> Hcode]]]]]].
    exists (pd_DataFrame records), empty_frame.
    apply Z.eqb_neq in Hcode.
    unfold fetch_transactions, fetch_try. simpl. rewrite Hcode. simpl.
    split; [reflexivity|]. split; [|reflexivity].
    destruct records; [contradiction | reflexivity].
Qed.

End FetchFrames.

Lemma fetched_token_frame_is_converted_witness :
  exists records,
    Response 200 (JsonResult [token_tx_ok]) = Response 200 (JsonResult records)
    /\ str_mem "tokenDecimal" (columns token_frame_ok) = true
    /\ Forall2 (converted_record (env := decimal_env)) records
                (rows token_frame_ok)
    /\ (forall r, In r (rows token_frame_ok) ->
          exists z, tx_tokenDecimal r = Int z).
Proof.
  apply (fetched_token_frame_is_converted (env := decimal_env) eth_ok
           (Response 200 (JsonResult [token_tx_ok]))
           (pd_DataFrame [tx_ab_1]) token_frame_ok).
  - reflexivity.
  - reflexivity.
Defined.


(** ** [update_graphs]: how many units, and when it raises *)

Section Callback.

Context {env : PyEnv}.

Lemma getitem_no_columns (df : DataFrame) (col : string) :
  columns df = [] -> getitem df col = Raise (KeyError col).
Proof. intros H. unfold getitem. now rewrite H. Qed.

Lemma drop_zero_value_result (df : DataFrame) :
  (exists df', drop_zero_value df = Ok df')
  \/ drop_zero_value df = Raise (KeyError "value").
Proof.
  unfold drop_zero_value, getitem.
  destruct (str_mem "value" (columns df)); simpl; eauto.
Qed.

(** X4. Whenever [update_graphs] returns, it returns two units when there
    are clicks to answer and both frames are empty after the zero-value
    filter, and three units otherwise: the answer for three outputs is one
    unit short in exactly that case. *)
Theorem update_graphs_unit_count (n_clicks : Z) (address : string)
  (hide_zero : list string) (eth_response erc20_response : response)
  (out : list component) :
  update_graphs n_clicks address hide_zero eth_response erc20_response = Ok out ->
  List.length out
  = if both_empty n_clicks hide_zero eth_response erc20_response
    then 2%nat else 3%nat.
Proof.
  unfold update_graphs, both_empty.
  destruct (n_clicks >? 0)%Z; simpl; [|intros H; now inversion H].
  destruct (fetch_transactions eth_response erc20_response) as [t e].
  unfold render_graphs.
  destruct (apply_hide_zero hide_zero t e) as [[t' e']|err]; simpl;
    [|discriminate].
  destruct (df_empty t' && df_empty e'); [intros H; now inversion H|].
  intros H.
  apply bind_Ok in H. destruct H as [a [_ H]].
  apply bind_Ok in H. destruct H as [b [_ H]].
  apply bind_Ok in H. destruct H as [pts [_ H]].
  now inversion H.
Qed.

(** X5. With the zero-value filter on and clicks to answer, a fetched frame
    without columns (what a failed request or the handler leaves) makes
    [update_graphs] raise [KeyError('value')]: the filter indexes the
    [value] column before any emptiness test. *)
Theorem hide_zero_raises_on_failed_fetch (n_clicks : Z) (address : string)
  (hide_zero : list string) (eth_response erc20_response : response)
  (t e : DataFrame) :
  (n_clicks > 0)%Z ->
  str_mem "hide" hide_zero = true ->
  fetch_transactions eth_response erc20_response = (t, e) ->
  columns t = [] \/ columns e = [] ->
  update_graphs n_clicks address hide_zero eth_response erc20_response
  = Raise (KeyError "value").
Proof.
  intros Hn Hhide Hfetch Hcols. unfold update_graphs.
  apply Z.gt_lt, Z.gtb_lt in Hn. rewrite Hn, Hfetch.
  unfold render_graphs, apply_hide_zero. rewrite Hhide.
  destruct Hcols as [Ht | He].
  - unfold drop_zero_value at 1. now rewrite (getitem_no_columns t "value" Ht).
  - destruct (drop_zero_value_result t) as [[t' Ht'] | Ht']; rewrite Ht'; simpl;
      [|reflexivity].
    unfold drop_zero_value. now rewrite (getitem_no_columns e "value" He).
Qed.

Lemma parses_converts (t : DataFrame) :
  (forall r, In r (rows t) -> parses r) -> converts t false.
Proof.
  intros Hp r Hr. destruct (Hp r Hr) as [_ Hv]. unfold tx_valueMajor.
  destruct (py_float (tx_value r)) as [v|]; [simpl; eauto | contradiction].
Qed.

Lemma graph_div_chart (no_data : component) (df : DataFrame) (token : bool)
  (address : string) :
  df_empty df = false -> converts df token ->
  exists G fig,
    create_network_graph df token = Ok G
    /\ draw_plotly_graph G token address = Ok fig
    /\ graph_div no_data df token address = Ok (dcc_Graph (Network fig)).
Proof.
  intros Hne Hc. destruct (create_network_graph_total _ _ Hc) as [G HG].
  destruct (create_network_graph_wf _ _ _ HG) as [Hwf _].
  destruct (draw_plotly_graph_total G token address Hwf) as [fig Hfig].
  exists G, fig. split; [assumption|]. split; [assumption|].
  unfold graph_div. rewrite Hne, HG. simpl. now rewrite Hfig.
Qed.

(** X6. When the native frame that comes out of the zero-value filter is
    not empty, has the [timeStamp] and [value] columns, and [float] and
    [pd.to_datetime] accept every one of its records, and the token frame
    is empty or its records all convert, nothing raises: the callback
    returns three units, the native chart, the token chart or its
    placeholder (the placeholder exactly for an empty token frame), and the
    plot of the time series. *)
Theorem render_graphs_three_units (address : string) (hide_zero : list string)
  (t0 e0 t e : DataFrame) :
  apply_hide_zero hide_zero t0 e0 = Ok (t, e) ->
  df_empty t = false ->
  str_mem "timeStamp" (columns t) = true ->
  str_mem "value" (columns t) = true ->
  (forall r, In r (rows t) -> parses r) ->
  df_empty e = true \/ converts e true ->
  exists G fig b pts,
    render_graphs address hide_zero t0 e0
    = Ok [dcc_Graph (Network fig); b; dcc_Graph (Scatter pts)]
    /\ create_network_graph t false = Ok G
    /\ draw_plotly_graph G false address = Ok fig
    /\ time_series t = Ok pts
    /\ is_placeholder b = df_empty e
    /\ (df_empty e = true -> b = no_erc20_data).
Proof.
  intros Hf Hne Hts Hval Hp He.
  destruct (graph_div_chart no_eth_data t false address Hne
              (parses_converts t Hp)) as [G [fig [HG [Hfig Hdiv]]]].
  assert (Hb : exists b, graph_div no_erc20_data e true address = Ok b
                         /\ is_placeholder b = df_empty e
                         /\ (df_empty e = true -> b = no_erc20_data)).
  { destruct (df_empty e) eqn:Ee.
    - exists no_erc20_data. unfold graph_div. rewrite Ee. now repeat split.
    - destruct He as [He | He]; [discriminate|].
      destruct (graph_div_chart no_erc20_data e true address Ee He)
        as [G' [fig' [_ [_ Hdiv']]]].
      exists (dcc_Graph (Network fig')). split; [assumption|].
      split; [reflexivity | discriminate]. }
  destruct Hb as [b [Hb1 [Hb2 Hb3]]].
  exists G, fig, b, (cumsum (groups_of (rows t))).
  assert (Hseries := time_series_ok t Hts Hval Hp).
  unfold render_graphs. rewrite Hf. simpl. rewrite Hne. simpl.
  rewrite Hdiv, Hb1, Hseries. simpl. now repeat split.
Qed.

End Callback.

Lemma update_graphs_unit_count_witness :
  List.length [no_eth_data; no_erc20_data]
  = if both_empty (env := decimal_env) 1 [] eth_ok no_transactions
    then 2%nat else 3%nat.
Proof.
  apply (update_graphs_unit_count (env := decimal_env) 1 "0xA" [] eth_ok
           no_transactions).
  vm_compute. reflexivity.
Defined.

Lemma hide_zero_raises_on_failed_fetch_witness :
  update_graphs (env := decimal_env) 1 "0xA" ["hide"] eth_ok server_error
  = Raise (KeyError "value").
Proof.
  apply (hide_zero_raises_on_failed_fetch (env := decimal_env) 1 "0xA" ["hide"]
           eth_ok server_error (pd_DataFrame [tx_ab_1]) empty_frame).
  - reflexivity.
  - reflexivity.
  - reflexivity.
  - right. reflexivity.
Defined.

(** Scenario C with a token request that failed: three units. *)
Lemma render_graphs_three_units_witness :
  exists G fig b pts,
    render_graphs (env := decimal_env) "0xA" []
      (pd_DataFrame [tx_ab_1; tx_ba_3]) empty_frame
    = Ok [dcc_Graph (Network fig); b; dcc_Graph (Scatter pts)]
    /\ create_network_graph (env := decimal_env)
         (pd_DataFrame [tx_ab_1; tx_ba_3]) false = Ok G
    /\ draw_plotly_graph (env := decimal_env) G false "0xA" = Ok fig
    /\ time_series (env := decimal_env) (pd_DataFrame [tx_ab_1; tx_ba_3])
       = Ok pts
    /\ is_placeholder b = df_empty empty_frame
    /\ (df_empty empty_frame = true -> b = no_erc20_data).
Proof.
  apply (render_graphs_three_units (env := decimal_env) "0xA" []
           (pd_DataFrame [tx_ab_1; tx_ba_3]) empty_frame).
  - reflexivity.
  - reflexivity.
  - reflexivity.
  - reflexivity.
  - exact (sample_records_parse [tx_ab_1; tx_ba_3] eq_refl).
  - left. reflexivity.
Defined.

(** ** [create_network_graph]: nodes, edges, failures *)

Lemma In_dict_keys_set {V : Type} (n k : string) (v : V) (d : dict V) :
  In n (dict_keys (dict_set k v d)) <-> n = k \/ In n (dict_keys d).
Proof.
  rewrite dict_keys_set. unfold dict_mem.
  destruct (dict_get k d) as [v'|] eqn:E.
  - apply dict_get_keys in E. split; [now right|].
    intros [-> | H]; assumption.
  - rewrite in_app_iff. simpl. intuition.
Qed.

Lemma nodes_ensure_node (n u : string) (G : nx.Graph) :
  In n (nx.nodes (nx.ensure_node u G)) <-> n = u \/ In n (nx.nodes G).
Proof.
  unfold nx.nodes, nx.ensure_node, dict_mem.
  destruct (dict_get u G) as [d|] eqn:E.
  - apply dict_get_keys in E. split; [now right|].
    intros [-> | H]; assumption.
  - apply In_dict_keys_set.
Qed.

Lemma nodes_add_edge (n u v : string) (w : Q) (G : nx.Graph) :
  In n (nx.nodes (nx.add_edge u v w G))
  <-> n = u \/ n = v \/ In n (nx.nodes G).
Proof.
  unfold nx.add_edge. cbv zeta. unfold nx.nodes at 1.
  rewrite !In_dict_keys_set.
  change (In n (dict_keys (nx.ensure_node v (nx.ensure_node u G))))
    with (In n (nx.nodes (nx.ensure_node v (nx.ensure_node u G)))).
  rewrite !nodes_ensure_node. intuition.
Qed.

Section BuilderShape.

Context {env : PyEnv}.

Lemma add_transactions_nodes (df : DataFrame) (token : bool) (n : string)
  (txs : list Row) (G G' : nx.Graph) :
  add_transactions df token txs G = Ok G' ->
  (In n (nx.nodes G')
   <-> In n (nx.nodes G)
       \/ exists tx, positive_tx df token txs tx
                     /\ (tx_from tx = n \/ tx_to tx = n)).
Proof.
  revert G. induction txs as [|tx txs IH]; simpl; intros G H.
  - inversion H; subst. split; [now left|].
    intros [H0 | [tx [[[] _] _]]]. assumption.
  - apply bind_Ok in H. destruct H as [v [Hv H]].
    destruct (Qlt_bool 0 v) eqn:E.
    + rewrite (IH _ H), nodes_add_edge. apply Qlt_bool_iff in E. split.
      * intros [[-> | [-> | Hn]] | [tx' [[Hin Hp] Hends]]].
        -- right. exists tx. split; [|now left]. split; [now left | eauto].
        -- right. exists tx. split; [|now right]. split; [now left | eauto].
        -- now left.
        -- right. exists tx'. split; [|assumption]. split; [now right | assumption].
      * intros [Hn | [tx' [[[<- | Hin] Hp] Hends]]].
        -- left. now right; right.
        -- left. destruct Hends as [<- | <-]; [now left | right; now left].
        -- right. exists tx'. now repeat split.
    + rewrite (IH _ H). apply Qlt_bool_false in E. split.
      * intros [Hn | [tx' [[Hin Hp] Hends]]]; [now left|].
        right. exists tx'. split; [|assumption]. split; [now right | assumption].
      * intros [Hn | [tx' [[[<- | Hin] Hp] Hends]]]; [now left | |].
        -- destruct Hp as [v' [Hv' Hpos]]. rewrite Hv in Hv'.
           inversion Hv'; subst. exfalso. exact (Qlt_not_le _ _ Hpos E).
        -- right. exists tx'. now repeat split.
Qed.

(** X7. For a frame whose records all convert, the nodes of the graph of
    [create_network_graph] are exactly the sender and receiver addresses of
    the transactions with a positive converted value. *)
Theorem nodes_are_positive_endpoints (df : DataFrame) (token : bool) :
  converts df token ->
  exists G,
    create_network_graph df token = Ok G
    /\ forall n,
         In n (nx.nodes G)
         <-> exists tx, positive_tx df token (rows df) tx
                        /\ (tx_from tx = n \/ tx_to tx = n).
Proof.
  intros Hall. destruct (create_network_graph_total _ _ Hall) as [G HG].
  exists G. split; [assumption|]. intros n.
  rewrite (add_transactions_nodes _ _ n _ _ _ HG). simpl. tauto.
Qed.

Lemma add_transactions_weight_source (df : DataFrame) (token : bool)
  (a b : string) (txs : list Row) (G G' : nx.Graph) (w : Q) :
  add_transactions df token txs G = Ok G' ->
  nx.weight G' a b = Some w ->
  nx.weight G a b = Some w
  \/ exists tx, positive_tx df token txs tx
                /\ same_pair a b (tx_from tx) (tx_to tx) = true.
Proof.
  revert G. induction txs as [|tx txs IH]; simpl; intros G H Hw.
  - inversion H; subst. now left.
  - apply bind_Ok in H. destruct H as [v [Hv H]].
    destruct (Qlt_bool 0 v) eqn:E.
    + destruct (IH _ H Hw) as [Hw' | [tx' [[Hin Hp] Hpair]]].
      * rewrite weight_add_edge in Hw'.
        destruct (same_pair (tx_from tx) (tx_to tx) a b) eqn:Ep; [|now left].
        right. exists tx. apply Qlt_bool_iff in E.
        split; [split; [now left | eauto]|].
        now rewrite same_pair_comm.
      * right. exists tx'. split; [|assumption]. split; [now right | assumption].
    + destruct (IH _ H Hw) as [Hw' | [tx' [[Hin Hp] Hpair]]]; [now left|].
      right. exists tx'. split; [|assumption]. split; [now right | assumption].
Qed.

Lemma same_pair_weight (G : nx.Graph) (a b x y : string) :
  wf G -> same_pair a b x y = true -> nx.weight G x y = nx.weight G a b.
Proof.
  intros HG H. unfold same_pair in H. apply orb_prop in H.
  destruct H as [H | H]; apply andb_prop in H; destruct H as [H1 H2];
    apply String.eqb_eq in H1, H2; subst; [reflexivity | apply (wf_sym G HG)].
Qed.

(** X8. For a frame whose records all convert, [G.edges(data=True)] of the
    graph of [create_network_graph] lists an edge between two addresses
    exactly when some transaction with a positive converted value goes from
    one to the other, in either direction. *)
Theorem edges_are_positive_pairs (df : DataFrame) (token : bool) :
  converts df token ->
  exists G,
    create_network_graph df token = Ok G
    /\ forall a b,
         (exists e, In e (pair_edges a b (nx.edges G)))
         <-> exists tx, positive_tx df token (rows df) tx
                        /\ same_pair a b (tx_from tx) (tx_to tx) = true.
Proof.
  intros Hall. destruct (create_network_graph_total _ _ Hall) as [G HG].
  exists G. split; [assumption|]. intros a b.
  destruct (create_network_graph_wf _ _ _ HG) as [Hwf _]. split.
  - intros [[[x y] w] Hin]. unfold pair_edges in Hin.
    apply filter_In in Hin. destruct Hin as [Hin Hp]. simpl in Hp.
    assert (Hw := edges_weight _ _ _ _ Hwf Hin).
    rewrite (same_pair_weight G a b x y Hwf Hp) in Hw.
    destruct (add_transactions_weight_source _ _ _ _ _ _ _ _ HG Hw)
      as [H0 | H]; [discriminate | assumption].
  - intros [tx [[Hin [v [Hv Hpos]]] Hp]].
    destruct (in_split _ _ Hin) as [pre [post Hrows]].
    unfold create_network_graph in HG.
    rewrite Hrows, add_transactions_app in HG.
    apply bind_Ok in HG. destruct HG as [G1 [_ HG]].
    simpl in HG. rewrite Hv in HG. simpl in HG.
    apply Qlt_bool_iff in Hpos. rewrite Hpos in HG.
    assert (Hw : nx.weight (nx.add_edge (tx_from tx) (tx_to tx) v G1) a b
                 = Some v).
    { rewrite weight_add_edge. rewrite same_pair_comm in Hp. now rewrite Hp. }
    destruct (add_transactions_defined _ _ _ _ _ _ _ _ HG Hw) as [w Hw'].
    destruct (edges_pair _ _ _ _ Hwf Hw') as [x [y [Hf _]]].
    exists (x, y, w). rewrite Hf. now left.
Qed.

Lemma add_transactions_raises (df : DataFrame) (token : bool)
  (pre post : list Row) (r : Row) (e : exn) (G : nx.Graph) :
  (forall tx, In tx pre -> exists v, tx_valueMajor df token tx = Ok v) ->
  tx_valueMajor df token r = Raise e ->
  add_transactions df token (pre ++ r :: post) G = Raise e.
Proof.
  intros Hpre Hr. rewrite add_transactions_app.
  destruct (add_transactions_total df token pre G Hpre) as [G1 HG1].
  rewrite HG1. simpl. now rewrite Hr.
Qed.

(** X9. The first record on which line 115 raises decides the builder:
    [create_network_graph] raises that exception, whatever comes after the
    record, and for a frame that is not empty the exception leaves the
    chart of the category too; no placeholder stands in for it. *)
Theorem builder_raises_at_first_failure (df : DataFrame) (token : bool)
  (pre post : list Row) (r : Row) (e : exn) :
  rows df = pre ++ r :: post ->
  (forall tx, In tx pre -> exists v, tx_valueMajor df token tx = Ok v) ->
  tx_valueMajor df token r = Raise e ->
  create_network_graph df token = Raise e
  /\ (df_empty df = false ->
      forall no_data address, graph_div no_data df token address = Raise e).
Proof.
  intros Hrows Hpre Hr.
  assert (H : create_network_graph df token = Raise e).
  { unfold create_network_graph. rewrite Hrows.
    now apply add_transactions_raises. }
  split; [assumption|]. intros Hne no_data address.
  unfold graph_div. now rewrite Hne, H.
Qed.

Lemma Qdiv_pos_iff (f c : Q) : (0 < c)%Q -> ((0 < f / c)%Q <-> (0 < f)%Q).
Proof.
  intros Hc. split; intros H.
  - apply Qnot_le_lt. intros Hle. apply (Qlt_not_le _ _ H).
    apply Qle_shift_div_r; [assumption|]. now rewrite Qmult_0_l.
  - apply Qlt_shift_div_l; [assumption|]. now rewrite Qmult_0_l.
Qed.

Lemma tx_valueMajor_sign (df : DataFrame) (token : bool) (tx : Row) (v : Q) :
  tx_valueMajor df token tx = Ok v ->
  exists f, py_float (tx_value tx) = Some f
            /\ (Qlt_bool 0 v = Qlt_bool 0 f).
Proof.
  unfold tx_valueMajor. intros H.
  assert (Hpow : forall d : Z, (0 < 10 ^ d)%Q)
    by (intros d; apply Qpower_0_lt; reflexivity).
  destruct (py_float (tx_value tx)) as [f|];
    [|destruct token; discriminate].
  exists f. split; [reflexivity|].
  assert (Hv : exists c, (0 < c)%Q /\ v = (f / c)%Q).
  { destruct token; simpl in H.
    - apply bind_Ok in H. destruct H as [_ [_ H]].
      apply bind_Ok in H. destruct H as [d [_ H]].
      inversion H. exists (10 ^ d)%Q. now split.
    - inversion H. exists (10 ^ 18)%Q. now split. }
  destruct Hv as [c [Hc ->]].
  destruct (Qlt_bool 0 f) eqn:Ef.
  - apply Qlt_bool_iff. apply Qdiv_pos_iff; [assumption|].
    now apply Qlt_bool_iff.
  - destruct (Qlt_bool 0 (f / c)) eqn:Ev; [|reflexivity].
    apply Qlt_bool_iff, Qdiv_pos_iff, Qlt_bool_iff in Ev; [congruence | assumption].
Qed.


Lemma zero_value_not_positive (df : DataFrame) (token : bool) (tx : Row)
  (z0 v : Q) :
  py_float "0" = Some z0 -> (z0 == 0)%Q ->
  tx_value tx = "0" ->
  tx_valueMajor df token tx = Ok v -> Qlt_bool 0 v = false.
Proof.
  intros Hz Hz0 Hval Hv.
  destruct (tx_valueMajor_sign df token tx v Hv) as [f [Hf ->]].
  rewrite Hval, Hz in Hf. inversion Hf; subst.
  apply Qlt_bool_false. rewrite Hz0. apply Qle_refl.
Qed.

End BuilderShape.

Section HideZeroGraph.

Context {env : PyEnv}.

Lemma add_transactions_drop_zero (df : DataFrame) (token : bool) (z0 : Q)
  (txs : list Row) (G0 G : nx.Graph) :
  py_float "0" = Some z0 -> (z0 == 0)%Q ->
  add_transactions df token txs G0 = Ok G ->
  add_transactions df token
    (filter (fun r => negb (tx_value r =? "0")) txs) G0 = Ok G.
Proof.
  intros Hz Hz0. revert G0. induction txs as [|tx txs IH]; simpl; intros G0 H;
    [assumption|].
  apply bind_Ok in H. destruct H as [v [Hv H]].
  destruct (tx_value tx =? "0") eqn:E; simpl.
  - apply String.eqb_eq in E.
    rewrite (zero_value_not_positive df token tx z0 v Hz Hz0 E Hv) in H.
    now apply IH.
  - rewrite Hv. simpl. destruct (Qlt_bool 0 v); now apply IH.
Qed.

(** X11. Hiding the zero-value transactions never changes the network: when
    [float('0')] is 0 and the records of a frame all convert, the graph
    built from the frame after the filter [value != '0'] is the graph built
    from the frame itself. *)
Theorem hide_zero_keeps_graph (df : DataFrame) (token : bool) (z0 : Q) :
  py_float "0" = Some z0 -> (z0 == 0)%Q ->
  converts df token ->
  str_mem "value" (columns df) = true ->
  exists G df',
    create_network_graph df token = Ok G
    /\ drop_zero_value df = Ok df'
    /\ create_network_graph df' token = Ok G.
Proof.
  intros Hz Hz0 Hall Hcol.
  destruct (create_network_graph_total _ _ Hall) as [G HG].
  exists G. eexists. split; [assumption|].
  unfold drop_zero_value, getitem. rewrite Hcol. simpl.
  split; [reflexivity|].
  unfold create_network_graph in *. simpl.
  rewrite (add_transactions_columns _ df) by reflexivity.
  exact (add_transactions_drop_zero _ _ _ _ _ _ Hz Hz0 HG).
Qed.

End HideZeroGraph.

Lemma nodes_are_positive_endpoints_witness :
  exists G,
    create_network_graph (env := decimal_env)
      (pd_DataFrame [tx_ab_1; tx_ac_0]) false = Ok G
    /\ forall n,
         In n (nx.nodes G)
         <-> exists tx,
               positive_tx (env := decimal_env)
                 (pd_DataFrame [tx_ab_1; tx_ac_0]) false [tx_ab_1; tx_ac_0] tx
               /\ (tx_from tx = n \/ tx_to tx = n).
Proof.
  apply (nodes_are_positive_endpoints (env := decimal_env)
           (pd_DataFrame [tx_ab_1; tx_ac_0]) false).
  apply sample_records_convert. reflexivity.
Defined.

Lemma edges_are_positive_pairs_witness :
  exists G,
    create_network_graph (env := decimal_env)
      (pd_DataFrame [tx_ab_1; tx_ac_0]) false = Ok G
    /\ forall a b,
         (exists e, In e (pair_edges a b (nx.edges G)))
         <-> exists tx,
               positive_tx (env := decimal_env)
                 (pd_DataFrame [tx_ab_1; tx_ac_0]) false [tx_ab_1; tx_ac_0] tx
               /\ same_pair a b (tx_from tx) (tx_to tx) = true.
Proof.
  apply (edges_are_positive_pairs (env := decimal_env)
           (pd_DataFrame [tx_ab_1; tx_ac_0]) false).
  apply sample_records_convert. reflexivity.
Defined.

(** A record whose value is no number, behind one that converts. *)
Lemma builder_raises_at_first_failure_witness :
  create_network_graph (env := decimal_env)
    (pd_DataFrame [tx_ab_1; tx_bad_value; tx_ba_3]) false
  = Raise (ValueError "could not convert string to float")
  /\ (df_empty (pd_DataFrame [tx_ab_1; tx_bad_value; tx_ba_3]) = false ->
      forall no_data address,
        graph_div (env := decimal_env) no_data
          (pd_DataFrame [tx_ab_1; tx_bad_value; tx_ba_3]) false address
        = Raise (ValueError "could not convert string to float")).
Proof.
  apply (builder_raises_at_first_failure (env := decimal_env)
           (pd_DataFrame [tx_ab_1; tx_bad_value; tx_ba_3]) false
           [tx_ab_1] [tx_ba_3] tx_bad_value).
  - reflexivity.
  - intros tx [<- | []]. eexists. vm_compute. reflexivity.
  - reflexivity.
Defined.


Lemma hide_zero_keeps_graph_witness :
  exists G df',
    create_network_graph (env := decimal_env)
      (pd_DataFrame [tx_ac_0; tx_ab_1]) false = Ok G
    /\ drop_zero_value (pd_DataFrame [tx_ac_0; tx_ab_1]) = Ok df'
    /\ create_network_graph (env := decimal_env) df' false = Ok G.
Proof.
  apply (hide_zero_keeps_graph (env := decimal_env)
           (pd_DataFrame [tx_ac_0; tx_ab_1]) false 0%Q).
  - reflexivity.
  - reflexivity.
  - apply sample_records_convert. reflexivity.
  - reflexivity.
Defined.

(** ** [draw_plotly_graph]: the figure of a graph *)

Lemma flat_map_length_3 {A B : Type} (f : A -> list B) (l : list A) :
  (forall a, List.length (f a) = 3%nat) ->
  List.length (flat_map f l) = (3 * List.length l)%nat.
Proof.
  intros H. induction l as [|a l IH]; simpl; [reflexivity|].
  rewrite length_app, H, IH. lia.
Qed.

Lemma node_size_range (G : nx.Graph) (center n : string) (size : R) :
  node_size G center n = Ok size -> (10 <= size <= 25)%R.
Proof.
  unfold node_size, center_size, base_size, max_size.
  destruct (n =? center).
  - intros H. inversion H. lra.
  - destruct (nx.degree G n) as [d|]; simpl; [|discriminate].
    intros H. inversion H as [Hsize]. clear H Hsize.
    assert (Hln : (0 <= ln (INR (d + 1)))%R).
    { rewrite <- ln_1. apply ln_le; [lra|].
      rewrite plus_INR. simpl. assert (H0 := pos_INR d). lra. }
    split.
    + apply Rmin_glb; lra.
    + apply Rbasic_fun.Rmin_r.
Qed.

Lemma mapM_Forall {A B : Type} (f : A -> result B) (P : B -> Prop)
  (l : list A) (l' : list B) :
  (forall a b, f a = Ok b -> P b) -> mapM f l = Ok l' -> Forall P l'.
Proof.
  intros HP H. apply mapM_Forall2 in H.
  induction H as [|a b l l' Hab _ IH]; constructor; eauto.
Qed.

Section Figure.

Context {env : PyEnv}.

Lemma draw_edges_closed (G : nx.Graph) (is_token : bool) (es : list nx.edge) :
  (forall u v w, In (u, v, w) es -> In u (nx.nodes G) /\ In v (nx.nodes G)) ->
  draw_edges (kamada_kawai_layout G 2) is_token es
  = Ok (flat_map (segment_x G) es, flat_map (segment_y G) es,
        map (label_of G is_token) es).
Proof.
  induction es as [|[[u v] w] es IH]; intros H; simpl; [reflexivity|].
  destruct (H u v w (or_introl eq_refl)) as [Hu Hv].
  rewrite (pos_get_layout _ _ _ Hu), (pos_get_layout _ _ _ Hv). simpl.
  rewrite IH by (intros; eapply H; right; eauto). simpl.
  destruct (kamada_kawai_solve G 2 u) as [x0 y0].
  destruct (kamada_kawai_solve G 2 v) as [x1 y1].
  now destruct is_token.
Qed.

Lemma draw_nodes_closed (G : nx.Graph) (center : string) (ns : list string) :
  (forall n, In n ns -> In n (nx.nodes G)) ->
  exists sizes,
    mapM (node_size G center) ns = Ok sizes
    /\ draw_nodes G (kamada_kawai_layout G 2) center ns
       = Ok (map (fun n => fst (kamada_kawai_solve G 2 n)) ns,
             map (fun n => snd (kamada_kawai_solve G 2 n)) ns, ns, sizes).
Proof.
  induction ns as [|n ns IH]; intros H; [exists []; now split|].
  destruct IH as [sizes [Hs Hd]]; [intros; apply H; now right|].
  destruct (node_size_total G center n (H n (or_introl eq_refl))) as [size Hn].
  exists (size :: sizes). split.
  - cbn [mapM]. rewrite Hn. cbn [bind]. now rewrite Hs.
  - cbn [draw_nodes map].
    rewrite (pos_get_layout _ _ _ (H n (or_introl eq_refl))). cbn [bind].
    rewrite Hn. cbn [bind]. now rewrite Hd.
Qed.

(** X12. The figure of a graph built with [add_edge] in closed form: no
    position lookup fails; the edge trace holds, for every listed edge in
    order, the two end positions and a [None] separator (three entries an
    edge); there is one annotation an edge, at the midpoint of its two
    ends, with the weight of the edge and the unit [ETH] or [TOKENS]; the
    node trace holds the nodes in the order of [G.nodes()], their names as
    texts and one size a node. *)
Theorem figure_closed_form (G : nx.Graph) (is_token : bool) (center : string) :
  wf G ->
  exists fig,
    draw_plotly_graph G is_token center = Ok fig
    /\ edge_x fig = flat_map (segment_x G) (nx.edges G)
    /\ edge_y fig = flat_map (segment_y G) (nx.edges G)
    /\ annotations fig = map (label_of G is_token) (nx.edges G)
    /\ node_x fig = map (fun n => fst (kamada_kawai_solve G 2 n)) (nx.nodes G)
    /\ node_y fig = map (fun n => snd (kamada_kawai_solve G 2 n)) (nx.nodes G)
    /\ node_text fig = nx.nodes G
    /\ List.length (edge_x fig) = (3 * List.length (nx.edges G))%nat
    /\ List.length (edge_y fig) = (3 * List.length (nx.edges G))%nat
    /\ List.length (node_sizes fig) = List.length (nx.nodes G).
Proof.
  intros HG.
  assert (He := draw_edges_closed G is_token (nx.edges G)
                  (fun u v w => edges_ends_nodes G u v w HG)).
  destruct (draw_nodes_closed G center (nx.nodes G) (fun n H => H))
    as [sizes [Hs Hn]].
  eexists. unfold draw_plotly_graph. rewrite He, Hn. simpl.
  split; [reflexivity|]. simpl.
  repeat (split; [reflexivity|]).
  split; [|split].
  - apply flat_map_length_3. now intros [[u v] w].
  - apply flat_map_length_3. now intros [[u v] w].
  - apply mapM_Forall2 in Hs. symmetry. exact (Forall2_length Hs).
Qed.

(** X13. Every marker size of the figure of a graph built with [add_edge]
    lies between 10 and 25, the focal node and hubs of any degree
    included. *)
Theorem marker_sizes_in_range (G : nx.Graph) (is_token : bool) (center : string) :
  wf G ->
  exists fig,
    draw_plotly_graph G is_token center = Ok fig
    /\ Forall (fun size => (10 <= size <= 25)%R) (node_sizes fig).
Proof.
  intros HG. destruct (draw_plotly_graph_total G is_token center HG) as [fig Hfig].
  exists fig. split; [assumption|].
  apply draw_plotly_graph_sizes in Hfig.
  exact (mapM_Forall _ _ _ _ (node_size_range G center) Hfig).
Qed.

End Figure.

Lemma ln_2_le_1 : (ln 2 <= 1)%R.
Proof.
  left. rewrite <- (ln_exp 1). apply ln_increasing; [lra|].
  assert (H := exp_ineq1 1). lra.
Qed.

Lemma ln_below_cap (x : R) : (1 <= x <= 32768)%R -> (ln x <= 15)%R.
Proof.
  intros [H1 H2].
  apply Rle_trans with (ln (2 ^ 15)).
  - apply ln_le; [lra|]. simpl. lra.
  - rewrite ln_pow by lra. simpl INR. assert (H := ln_2_le_1).
    assert (H0 : (0 < ln 2)%R) by (rewrite <- ln_1; apply ln_increasing; lra).
    lra.
Qed.

(** X14. The cap of 25 is out of reach for every degree below 32768: the
    marker of a node that is not the focal one then has size
    [10 + ln(degree + 1)] exactly, and a node of higher degree has a
    strictly larger marker, so that markers tell such degrees apart. *)
Theorem marker_cap_out_of_reach (G G' : nx.Graph) (center n n' : string)
  (d d' : nat) :
  nx.degree G n = Some d ->
  nx.degree G' n' = Some d' ->
  (n =? center) = false ->
  (n' =? center) = false ->
  (d < d')%nat ->
  (Z.of_nat d' < 32768)%Z ->
  exists size size',
    node_size G center n = Ok size
    /\ node_size G' center n' = Ok size'
    /\ size = (10 + ln (INR d + 1))%R
    /\ size' = (10 + ln (INR d' + 1))%R
    /\ (size < size')%R.
Proof.
  intros Hd Hd' Hn Hn' Hlt Hcap.
  assert (Hd'R : (INR d' + 1 <= 32768)%R).
  { rewrite INR_IZR_INZ. rewrite <- (plus_IZR _ 1). apply IZR_le. lia. }
  assert (HltR : (INR d < INR d')%R) by now apply lt_INR.
  assert (H0 := pos_INR d).
  exists (10 + ln (INR d + 1))%R, (10 + ln (INR d' + 1))%R.
  unfold node_size, base_size, max_size. rewrite Hn, Hn', Hd, Hd'. simpl.
  rewrite !plus_INR. simpl INR.
  rewrite !Rmin_left by (assert (H := ln_below_cap (INR d + 1));
                         assert (H' := ln_below_cap (INR d' + 1)); lra).
  repeat (split; [reflexivity|]).
  apply Rplus_lt_compat_l. apply ln_increasing; lra.
Qed.

(** The sample graph with one edge. *)
Lemma figure_closed_form_witness :
  exists fig,
    draw_plotly_graph (env := decimal_env)
      (nx.add_edge "0xA" "0xB" one_eth nx.empty) false "0xA" = Ok fig
    /\ annotations fig
       = map (label_of (env := decimal_env)
                (nx.add_edge "0xA" "0xB" one_eth nx.empty) false)
             [("0xA", "0xB", one_eth)]
    /\ node_text fig = ["0xA"; "0xB"]
    /\ List.length (edge_x fig) = 3%nat.
Proof.
  destruct (figure_closed_form (env := decimal_env)
              (nx.add_edge "0xA" "0xB" one_eth nx.empty) false "0xA"
              (wf_add_edge _ _ _ _ wf_empty))
    as [fig [H1 [_ [_ [H4 [_ [_ [H7 [H8 _]]]]]]]]].
  exists fig. now repeat split.
Defined.

Lemma marker_sizes_in_range_witness :
  exists fig,
    draw_plotly_graph (env := decimal_env)
      (nx.add_edge "0xA" "0xB" one_eth nx.empty) false "0xA" = Ok fig
    /\ Forall (fun size => (10 <= size <= 25)%R) (node_sizes fig).
Proof.
  exact (marker_sizes_in_range (env := decimal_env)
           (nx.add_edge "0xA" "0xB" one_eth nx.empty) false "0xA"
           (wf_add_edge _ _ _ _ wf_empty)).
Defined.

(** 0xB has one edge, 0xD a self-loop that counts twice. *)
Lemma marker_cap_out_of_reach_witness :
  exists size size',
    node_size (nx.add_edge "0xA" "0xB" one_eth nx.empty) "0xA" "0xB" = Ok size
    /\ node_size (nx.add_edge "0xD" "0xD" five_eth nx.empty) "0xA" "0xD"
       = Ok size'
    /\ size = (10 + ln (INR 1 + 1))%R
    /\ size' = (10 + ln (INR 2 + 1))%R
    /\ (size < size')%R.
Proof.
  apply (marker_cap_out_of_reach
           (nx.add_edge "0xA" "0xB" one_eth nx.empty)
           (nx.add_edge "0xD" "0xD" five_eth nx.empty) "0xA" "0xB" "0xD" 1 2).
  - reflexivity.
  - reflexivity.
  - reflexivity.
  - reflexivity.
  - lia.
  - reflexivity.
Defined.

(** ** The time series: order of the input, last point, hidden zeros *)



Lemma insert_key_length (k : Z) (ks : list Z) :
  (List.length (insert_key k ks) <= S (List.length ks))%nat.
Proof.
  induction ks as [|k' ks IH]; simpl; [lia|].
  destruct (k <? k')%Z; simpl; [lia|].
  destruct (k =? k')%Z; simpl; lia.
Qed.

Lemma sorted_unique_length (l : list Z) :
  (List.length (sorted_unique l) <= List.length l)%nat.
Proof.
  unfold sorted_unique. induction l as [|a l IH]; simpl; [lia|].
  assert (H := insert_key_length a (fold_right insert_key [] l)). lia.
Qed.

Section SeriesShape.

Context {env : PyEnv}.

Lemma series_keys (rs : list Row) :
  map fst (cumsum (groups_of rs)) = sorted_unique (times_of rs).
Proof. now rewrite cumsum_keys, groups_of_keys. Qed.

(** The value of the series at [t] is the sum over the records up to [t]. *)
Lemma series_value (rs : list Row) (t : Z) (c : Q) :
  In (t, c) (cumsum (groups_of rs)) -> (c == total_upto rs t)%Q.
Proof.
  intros Hin.
  rewrite (cumsum_upto (groups_of rs) t c); [|
    rewrite groups_of_keys; apply sorted_unique_sorted | assumption].
  unfold groups_of. rewrite sum_upto_keyed.
  apply groups_total_upto.
  - apply sorted_NoDup, sorted_unique_sorted.
  - intros t' Ht'. now apply sorted_unique_In.
Qed.

Lemma times_of_In (rs : list Row) (t : Z) :
  In t (times_of rs) <-> exists r, In r rs /\ raw_time r = Some t.
Proof.
  unfold times_of. rewrite in_flat_map.
  split; intros [r [H1 H2]]; exists r; split; try assumption.
  - destruct (raw_time r) as [t'|]; [|contradiction].
    destruct H2 as [-> | []]. reflexivity.
  - rewrite H2. now left.
Qed.

Lemma times_of_length (rs : list Row) :
  (List.length (times_of rs) <= List.length rs)%nat.
Proof.
  unfold times_of. induction rs as [|r rs IH]; simpl; [lia|].
  rewrite length_app. destruct (raw_time r); simpl; lia.
Qed.



(** X16. The time series has at most one point a record, and it ends at
    the total: the value of its last point is the sum of the values of all
    the records that have a time. *)
Theorem time_series_ends_at_total (df : DataFrame) :
  str_mem "timeStamp" (columns df) = true ->
  str_mem "value" (columns df) = true ->
  (forall r, In r (rows df) -> parses r) ->
  exists pts,
    time_series df = Ok pts
    /\ (List.length pts <= List.length (rows df))%nat
    /\ (forall pre t c, pts = pre ++ [(t, c)] ->
          (c == grand_total (rows df))%Q).
Proof.
  intros Ht Hv Hp. exists (cumsum (groups_of (rows df))).
  split; [now apply time_series_ok|]. split.
  - rewrite <- (length_map fst), series_keys.
    assert (H1 := sorted_unique_length (times_of (rows df))).
    assert (H2 := times_of_length (rows df)). lia.
  - intros pre t c Hpts.
    assert (Hin : In (t, c) (cumsum (groups_of (rows df))))
      by (rewrite Hpts; apply in_or_app; right; now left).
    rewrite (series_value _ _ _ Hin).
    unfold total_upto, grand_total.
    assert (Hsorted : StronglySorted Z.lt (map fst pre ++ [t])).
    { assert (H := sorted_unique_sorted (times_of (rows df))).
      rewrite <- series_keys, Hpts, map_app in H. exact H. }
    assert (Hmax : forall t', In t' (times_of (rows df)) -> (t' <= t)%Z).
    { intros t' Ht'. apply sorted_unique_In in Ht'.
      rewrite <- series_keys, Hpts, map_app in Ht'. simpl in Ht'.
      apply in_app_or in Ht'. destruct Ht' as [Ht' | [<- | []]]; [|lia].
      clear -Hsorted Ht'. induction (map fst pre) as [|a l IH];
        [contradiction|].
      simpl in Hsorted. inversion Hsorted as [|? ? Hs Hall]; subst.
      destruct Ht' as [<- | Ht'].
      - rewrite Forall_forall in Hall.
        assert (a < t)%Z by (apply Hall; apply in_or_app; right; now left).
        lia.
      - now apply IH. }
    rewrite (filter_ext_in (upto_time t) has_time); [reflexivity|].
    intros r Hr. unfold upto_time, has_time.
    destruct (raw_time r) as [t'|] eqn:Er; [|reflexivity].
    apply Z.leb_le. apply Hmax. apply times_of_In. now exists r.
Qed.

Lemma raw_ether_zero (r : Row) (z0 : Q) :
  py_float "0" = Some z0 -> (z0 == 0)%Q -> tx_value r = "0" ->
  (raw_ether r == 0)%Q.
Proof.
  intros Hz Hz0 Hr. unfold raw_ether. rewrite Hr, Hz, Hz0.
  unfold Qdiv. apply Qmult_0_l.
Qed.

Lemma total_upto_drop_zero (rs : list Row) (z0 : Q) (t : Z) :
  py_float "0" = Some z0 -> (z0 == 0)%Q ->
  (total_upto (filter (fun r => negb (tx_value r =? "0")) rs) t
   == total_upto rs t)%Q.
Proof.
  intros Hz Hz0. induction rs as [|r rs IH]; simpl; [reflexivity|].
  rewrite (total_upto_cons r rs).
  destruct (tx_value r =? "0") eqn:E; simpl.
  - apply String.eqb_eq in E.
    rewrite IH. destruct (upto_time t r); [|ring].
    rewrite (raw_ether_zero r z0 Hz Hz0 E). ring.
  - now rewrite total_upto_cons, IH.
Qed.

(** X17. Hiding the zero-value transactions leaves the values of the time
    series as they are: when [float('0')] is 0, every point of the series
    of the filtered frame has the value the unfiltered records add up to
    at its time; its times are the time stamps of the records whose value
    string is not ['0']. *)
Theorem hide_zero_keeps_series_values (df : DataFrame) (z0 : Q) :
  py_float "0" = Some z0 -> (z0 == 0)%Q ->
  str_mem "timeStamp" (columns df) = true ->
  str_mem "value" (columns df) = true ->
  (forall r, In r (rows df) -> parses r) ->
  exists df' pts,
    drop_zero_value df = Ok df'
    /\ time_series df' = Ok pts
    /\ (forall t c, In (t, c) pts -> (c == total_upto (rows df) t)%Q)
    /\ (forall t, In t (map fst pts)
                 <-> exists r, In r (rows df)
                               /\ (tx_value r =? "0") = false
                               /\ raw_time r = Some t).
Proof.
  intros Hz Hz0 Ht Hv Hp.
  exists {| columns := columns df;
            rows := filter (fun r => negb (tx_value r =? "0")) (rows df) |}.
  eexists. split.
  { unfold drop_zero_value, getitem. now rewrite Hv. }
  split.
  { apply time_series_ok; simpl; try assumption.
    intros r Hr. apply filter_In in Hr. now apply Hp. }
  simpl. split.
  - intros t c Hin. rewrite (series_value _ _ _ Hin).
    now apply (total_upto_drop_zero _ z0).
  - intros t. rewrite series_keys, sorted_unique_In, times_of_In.
    split.
    + intros [r [Hr Hrt]]. apply filter_In in Hr. destruct Hr as [Hr Hnz].
      exists r. split; [assumption|]. split; [|assumption].
      now destruct (tx_value r =? "0").
    + intros [r [Hr [Hnz Hrt]]]. exists r. split; [|assumption].
      apply filter_In. split; [assumption|]. now rewrite Hnz.
Qed.

End SeriesShape.


Lemma time_series_ends_at_total_witness :
  exists pts,
    time_series (env := decimal_env) (pd_DataFrame [tx_ba_3; tx_ab_1; tx_ab_2])
    = Ok pts
    /\ (List.length pts <= 3)%nat
    /\ (forall pre t c, pts = pre ++ [(t, c)] ->
          (c == grand_total (env := decimal_env)
                  [tx_ba_3; tx_ab_1; tx_ab_2])%Q).
Proof.
  exact (time_series_ends_at_total (env := decimal_env)
           (pd_DataFrame [tx_ba_3; tx_ab_1; tx_ab_2]) eq_refl eq_refl
           (sample_records_parse [tx_ba_3; tx_ab_1; tx_ab_2] eq_refl)).
Defined.

Lemma hide_zero_keeps_series_values_witness :
  exists df' pts,
    drop_zero_value (pd_DataFrame [tx_ab_1; tx_ac_0]) = Ok df'
    /\ time_series (env := decimal_env) df' = Ok pts
    /\ (forall t c, In (t, c) pts ->
          (c == total_upto (env := decimal_env) [tx_ab_1; tx_ac_0] t)%Q)
    /\ (forall t, In t (map fst pts)
                 <-> exists r, In r [tx_ab_1; tx_ac_0]
                               /\ (tx_value r =? "0") = false
                               /\ raw_time (env := decimal_env) r = Some t).
Proof.
  exact (hide_zero_keeps_series_values (env := decimal_env)
           (pd_DataFrame [tx_ab_1; tx_ac_0]) 0%Q eq_refl (Qeq_refl 0)
           eq_refl eq_refl
           (sample_records_parse [tx_ab_1; tx_ac_0] eq_refl)).
Defined.

(** ** [create_network_graph]: the direction of a transfer *)

Section Direction.

Context {env : PyEnv}.

Lemma tx_valueMajor_swap_ends (df df' : DataFrame) (token : bool) (r : Row) :
  columns df' = columns df ->
  tx_valueMajor df' token (swap_ends r) = tx_valueMajor df token r.
Proof. intros H. unfold tx_valueMajor, getitem. now rewrite H. Qed.

Lemma add_transactions_swap_ends (df df' : DataFrame) (token : bool)
  (txs : list Row) (G0 G0' G : nx.Graph) :
  columns df' = columns df ->
  (forall a b, nx.weight G0' a b = nx.weight G0 a b) ->
  (forall n, In n (nx.nodes G0') <-> In n (nx.nodes G0)) ->
  add_transactions df token txs G0 = Ok G ->
  exists G',
    add_transactions df' token (map swap_ends txs) G0' = Ok G'
    /\ (forall a b, nx.weight G' a b = nx.weight G a b)
    /\ (forall n, In n (nx.nodes G') <-> In n (nx.nodes G)).
Proof.
  intros Hcols. revert G0 G0'.
  induction txs as [|tx txs IH]; simpl; intros G0 G0' Hw Hn H.
  - inversion H; subst. exists G0'. split; [reflexivity | split; assumption].
  - rewrite (tx_valueMajor_swap_ends df df' token tx Hcols).
    apply bind_Ok in H. destruct H as [v [Hv H]]. rewrite Hv. simpl.
    destruct (Qlt_bool 0 v).
    + apply (IH _ _ ) with (3 := H).
      * intros a b. rewrite !weight_add_edge, same_pair_sym, Hw. reflexivity.
      * intros n. rewrite !nodes_add_edge, Hn. tauto.
    + now apply (IH _ _ Hw Hn).
Qed.

(** X18. The graph forgets the direction of the transfers: exchanging
    sender and receiver in every record of a frame whose records convert
    gives a graph with the same nodes and the same weight between any two
    addresses. *)
Theorem graph_forgets_direction (df : DataFrame) (token : bool) :
  converts df token ->
  exists G G',
    create_network_graph df token = Ok G
    /\ create_network_graph
         {| columns := columns df; rows := map swap_ends (rows df) |} token
       = Ok G'
    /\ (forall a b, nx.weight G' a b = nx.weight G a b)
    /\ (forall n, In n (nx.nodes G') <-> In n (nx.nodes G)).
Proof.
  intros Hall. destruct (create_network_graph_total _ _ Hall) as [G HG].
  destruct (add_transactions_swap_ends df
              {| columns := columns df; rows := map swap_ends (rows df) |}
              token (rows df) nx.empty nx.empty G eq_refl
              (fun _ _ => eq_refl) (fun n => iff_refl _) HG)
    as [G' [HG' [Hw Hn]]].
  exists G, G'. split; [assumption | split; [assumption | split; assumption]].
Qed.

End Direction.

Lemma graph_forgets_direction_witness :
  exists G G',
    create_network_graph (env := decimal_env)
      (pd_DataFrame [tx_ab_1; tx_dd_5]) false = Ok G
    /\ create_network_graph (env := decimal_env)
         {| columns := columns (pd_DataFrame [tx_ab_1; tx_dd_5]);
            rows := map swap_ends [tx_ab_1; tx_dd_5] |} false
       = Ok G'
    /\ (forall a b, nx.weight G' a b = nx.weight G a b)
    /\ (forall n, In n (nx.nodes G') <-> In n (nx.nodes G)).
Proof.
  apply (graph_forgets_direction (env := decimal_env)
           (pd_DataFrame [tx_ab_1; tx_dd_5]) false).
  apply sample_records_convert. reflexivity.
Defined.
